(** * The REST layer of the knowledge agent (src/agent/api.py)

    A shallow embedding of the FastAPI endpoints of [agent/api.py] and of the
    response models of [agent/data_model/response_data_model.py].

    The endpoints are short scripts over collaborators that live outside the
    two modelled files: the strategy factory and the service object of
    [agent.backend.LLMStrategy], the helpers of [agent.utils.utility] and
    [agent.utils.vdb], the file system and the Qdrant client.  Every such call
    is an oracle of the environment record [Env]: it reads and updates an
    abstract collaborator state, may raise, and is logged in a trace, so that
    "which call was made, with which arguments, in which order" can be stated
    and proved.  Only the Qdrant delete request, which [delete] builds and
    sends itself, is given a concrete store. *)

From Stdlib Require Import ZArith Floats Sorted.
From stdpp Require Import base strings gmap list.

Local Open Scope Z_scope.
#[local] Set Warnings "-register-all".

(** ** Python values and exceptions *)

(** Scalar values that occur in document metadata and in match conditions. *)
Inductive pyval :=
  | PInt (z : Z)
  | PStr (s : string).

#[global] Instance pyval_eq_dec : EqDecision pyval.
Proof. solve_decision. Defined.

(** An exception raised inside a collaborator: its class and its message. *)
Record py_exn := PyExn { exn_class : string; exn_msg : string }.

(** What an endpoint can raise.  The first four are raised by the modelled
    code itself (explicit [raise], attribute and subscript misses, pydantic
    validation); [Propagated] is anything a collaborator raised, passed on
    unchanged since [api.py] has no [try]. *)
Inductive exn :=
  | ValueError (msg : string)
  | AttributeError (msg : string)
  | KeyError (key : string)
  | ValidationError (field : string)
  | Propagated (e : py_exn).

(** A function object has the attributes of its instance dictionary; looking
    up any other name raises [AttributeError]. *)
Record FunctionObject := { fn_name : string; fn_dict : gmap string pyval }.

Definition function_getattr (f : FunctionObject) (name : string) : exn + pyval :=
  match fn_dict f !! name with
  | Some v => inr v
  | None => inl (AttributeError ("'function' object has no attribute '" +:+ name +:+ "'"))
  end.

Definition type_name (v : pyval) : string :=
  match v with PInt _ => "int" | PStr _ => "str" end.

(** Integers and strings carry no instance attributes. *)
Definition pyval_getattr (v : pyval) (name : string) : exn + pyval :=
  inl (AttributeError ("'" +:+ type_name v +:+ "' object has no attribute '" +:+ name +:+ "'")).

(** ** Request models

    Modelled from the spec: [agent/data_model/request_data_model.py] is not
    part of the sources.  The records below carry exactly the fields that
    [api.py] reads or writes; the provider binding is the closed set of §3
    (cloud provider A = Aleph Alpha, cloud provider B = OpenAI, local
    provider C = GPT4All), the three members [api.py] names.
    [OtherProvider] stands for any value that compares unequal to these
    three, which is what the [else] branch of [delete] receives. *)
Inductive LLMProvider :=
  | ALEPH_ALPHA
  | OPENAI
  | GPT4ALL
  | OtherProvider (raw : string).

#[global] Instance LLMProvider_eq_dec : EqDecision LLMProvider.
Proof. solve_decision. Defined.

(** The text an f-string shows for a provider value. *)
Definition format_provider (p : LLMProvider) : string :=
  match p with
  | ALEPH_ALPHA => "LLMProvider.ALEPH_ALPHA"
  | OPENAI => "LLMProvider.OPENAI"
  | GPT4ALL => "LLMProvider.GPT4ALL"
  | OtherProvider raw => raw
  end.

Module LLMBackend.
Record t := mk {
    llm_provider : LLMProvider;
    token : option string;
    collection_name : option string }.

(** [llm_backend.token = v] *)
Definition set_token (b : t) (v : string) : t :=
    mk (llm_provider b) (Some v) (collection_name b).
End LLMBackend.

Module SearchRequest.
Record t := mk {
    query : option string;
    llm_backend : LLMBackend.t;
    collection_name : option string }.

Definition set_llm_backend (s : t) (b : LLMBackend.t) : t :=
    mk (query s) b (collection_name s).
End SearchRequest.

Module Filtering.
Record t := mk { fields : list (string * pyval) }.
End Filtering.

Module RAGRequest.
Record t := mk {
    search : SearchRequest.t;
    history : list string }.
End RAGRequest.

Module ExplainQARequest.
Record t := mk {
    rag_request : RAGRequest.t;
    explain_threshold : float }.
End ExplainQARequest.

Module EmbeddTextRequest.
Record t := mk {
    text : string;
    file_name : string;
    seperator : string }.
End EmbeddTextRequest.

(** An uploaded file: its name, possibly missing, and the bytes [read]
    returns. *)
Module UploadFile.
Record t := mk {
    filename : option string;
    content : string }.
End UploadFile.

Module EmbeddTextFilesRequest.
Record t := mk {
    files : list UploadFile.t;
    seperator : string }.
End EmbeddTextFilesRequest.

Module CustomPromptCompletion.
Record t := mk {
    text : string;
    search : SearchRequest.t }.
End CustomPromptCompletion.

(** A retrieved document as [service.search] returns it: page content and a
    metadata dictionary. *)
Module Document.
Record t := mk {
    page_content : string;
    metadata : gmap string pyval }.
End Document.

(** ** Response models (response_data_model.py) *)

Inductive Status := SUCCESS | FAILURE.

#[global] Instance Status_eq_dec : EqDecision Status.
Proof. solve_decision. Defined.

Definition Status_value (s : Status) : string :=
  match s with SUCCESS => "success" | FAILURE => "failure" end.

(** Enum lookup by value, as pydantic does for a [Status] field. *)
Definition Status_of_value (v : string) : option Status :=
  if String.eqb v "success" then Some SUCCESS
  else if String.eqb v "failure" then Some FAILURE
  else None.

Module SearchResponse.
Record t := mk {
    text : string;
    page : Z;
    source : string;
    score : float }.
End SearchResponse.

Module EmbeddingResponse.
Record t := mk {
    status : Status;
    files : list string }.
End EmbeddingResponse.

Module QAResponse.
Record t := mk {
    answer : string;
    prompt : string;
    meta_data : option (gmap string string) }.
End QAResponse.

Module ExplainQAResponse.
Record t := mk {
    answer : string;
    meta_data : option (gmap string string);
    explanation : string;
    text : string;
    score : float }.
End ExplainQAResponse.

(** [JSONResponse(content={...})] with a flat string dictionary. *)
Module JSONResponse.
Record t := mk { content : list (string * string) }.
End JSONResponse.

(** ** The Qdrant client, as far as [delete] uses it

    [qdrant_client] is a third-party package.  Modelled here: payloads as
    nested JSON objects, a [Filter] with [must] conditions (all of them have
    to hold), [FieldCondition] on a dotted key path with an exact
    [MatchValue], and [delete] by [FilterSelector], which answers with an
    [UpdateResult] (operation id and status). *)
Module Qdrant.

Inductive json :=
  | JVal (v : pyval)
  | JObj (members : list (string * json)).

Record PointStruct := {
  id : Z;
  vector : list float;
  payload : json }.

Record FieldCondition := {
  key : string;
  match_value : pyval }.

Record Filter := { must : list FieldCondition }.

Inductive UpdateStatus := ACKNOWLEDGED | COMPLETED.

Record UpdateResult := {
  operation_id : Z;
  status : UpdateStatus }.

(** The collections of a store.  [operations] counts the update operations
    the store has taken and [operation_ids n] is the id the service gives to
    its [n]-th one; nothing is assumed about these ids (a server counts them
    up, the local mode answers 0 every time). *)
Record Store := {
  collections : gmap string (list PointStruct);
  operation_ids : nat -> Z;
  operations : nat }.

Definition dot : Ascii.ascii := Ascii.Ascii false true true true false true false false.

(** ["metadata.page"] is the path [["metadata"; "page"]]. *)
Fixpoint split_key (acc : string) (k : string) : list string :=
  match k with
  | EmptyString => [acc]
  | String c rest =>
      if Ascii.eqb c dot then acc :: split_key EmptyString rest
      else split_key (acc +:+ String c EmptyString) rest
  end.

Fixpoint member (k : string) (members : list (string * json)) : option json :=
  match members with
  | [] => None
  | (k', v) :: rest => if String.eqb k k' then Some v else member k rest
  end.

Fixpoint json_get (path : list string) (j : json) : option json :=
  match path with
  | [] => Some j
  | k :: rest =>
      match j with
      | JObj members =>
          match member k members with
          | Some j' => json_get rest j'
          | None => None
          end
      | JVal _ => None
      end
  end.

(** The payload value under a dotted key. *)
Definition payload_at (k : string) (p : PointStruct) : option json :=
  json_get (split_key EmptyString k) (payload p).

(** Exact match of the value under the condition's key. *)
Definition check_condition (c : FieldCondition) (p : PointStruct) : bool :=
  match payload_at (key c) p with
  | Some (JVal v) => bool_decide (v = match_value c)
  | _ => false
  end.

(** [must]: every condition holds. *)
Definition check_filter (f : Filter) (p : PointStruct) : bool :=
  forallb (fun c => check_condition c p) (must f).

(** [client.delete(collection_name, points_selector=FilterSelector(filter))],
    with the client's default [wait=True]: the selected points are gone when
    the call returns, and the answer is the operation's id and its status.  A
    collection that does not exist is an error of the service. *)
Definition delete (collection_name : string) (f : Filter) (s : Store)
  : Store * (py_exn + UpdateResult) :=
  match collections s !! collection_name with
  | None =>
      (s, inl (PyExn "UnexpectedResponse"
                 ("Collection `" +:+ collection_name +:+ "` doesn't exist!")))
  | Some points =>
      ({| collections :=
            <[collection_name := filter (fun p => check_filter f p = false) points]>
              (collections s);
          operation_ids := operation_ids s;
          operations := S (operations s) |},
       inr {| operation_id := operation_ids s (operations s); status := COMPLETED |})
  end.

End Qdrant.

(** ** Collaborators, trace and world *)

(** The service object [LLMContext(strategy)].  The strategy is whatever
    [LLMStrategyFactory.get_strategy] built from its three arguments; the
    handle records them: this is the provider binding of the request. *)
Record LLMContext := {
  strategy_type : LLMProvider;
  strategy_token : option string;
  strategy_collection_name : option string }.

(** [validate_token] is called with either the whole backend object or its
    provider as [llm_backend] argument. *)
Inductive TokenScope :=
  | ScopeBackend (b : LLMBackend.t)
  | ScopeProvider (p : LLMProvider).

(** The three keyword shapes of [service.embed_documents]. *)
Inductive EmbedArgs :=
  | EmbedDirectory (directory : option string) (file_ending : string)
  | EmbedText (text file_name seperator : string)
  | EmbedFolder (folder : option string) (aleph_alpha_token : string) (seperator : string).

Inductive ServiceCall :=
  | CreateCollection (name : string)
  | EmbedDocuments (args : EmbedArgs)
  | Search (search : SearchRequest.t) (filtering : option Filtering.t)
  | SummarizeText (text token : string)
  | Rag (rag : RAGRequest.t) (llm_backend : LLMBackend.t) (filtering : Filtering.t)
  | ExplainQa (query : option string) (explain_threshold : float)
      (document : list (Document.t * float)) (aleph_alpha_token : option string)
  | Generate (text : string).

(** One entry per call that leaves [api.py]. *)
Inductive Event :=
  | EvValidateToken (token : option string) (llm_backend : TokenScope)
      (aleph_alpha_key openai_key : option string)
  | EvGetStrategy (strategy_type : LLMProvider) (token collection_name : option string)
  | EvCreateTmpFolder
  | EvPathExists (path : string)
  | EvWriteFile (path data : string)
  | EvCombineText (texts : list string)
  | EvService (service : LLMContext) (call : ServiceCall)
  | EvLoadVecDbConn
  | EvQdrantDelete (collection_name : string) (selector : Qdrant.Filter).

Section Runtime.

(** The state of everything behind the collaborators (network services,
    file system, credential cache); nothing is assumed about it. *)
Context {W : Type}.

(** A collaborator call: new state, and an exception or a value. *)
Definition Oracle (A : Type) : Type := W -> W * (py_exn + A).

Record Env := {
  (** [os.environ.get(...)] at import time *)
  ALEPH_ALPHA_API_KEY : option string;
  OPENAI_API_KEY : option string;
  (** agent.utils.utility *)
  validate_token : option string -> TokenScope -> option string -> option string -> Oracle string;
  create_tmp_folder : Oracle (option string);
  combine_text_from_list : list string -> Oracle string;
  (** pathlib *)
  path_exists : string -> Oracle bool;
  write_file : string -> string -> Oracle unit;
  (** agent.backend.LLMStrategy *)
  get_strategy : LLMProvider -> option string -> option string -> Oracle unit;
  service_create_collection : LLMContext -> string -> Oracle unit;
  service_embed_documents : LLMContext -> EmbedArgs -> Oracle unit;
  service_search : LLMContext -> SearchRequest.t -> option Filtering.t ->
                   Oracle (list (Document.t * float));
  service_summarize_text : LLMContext -> string -> string -> Oracle string;
  service_rag : LLMContext -> RAGRequest.t -> LLMBackend.t -> Filtering.t ->
                Oracle (string * string * option (gmap string string));
  service_explain_qa : LLMContext -> option string -> float -> list (Document.t * float) ->
                       option string ->
                       Oracle (string * float * string * string * option (gmap string string));
  service_generate : LLMContext -> string -> Oracle string;
  (** agent.utils.vdb *)
  load_vec_db_conn : Oracle unit;
  (** pydantic: what an [int] field and a [str] field make of a value;
      [None] when the field refuses it *)
  pydantic_int : pyval -> option Z;
  pydantic_str : pyval -> option string }.

Record World := {
  ext : W;
  qdrant : Qdrant.Store;
  trace : list Event }.

(** Endpoint computations: state passing with exceptions; the world reached
    when an exception is raised is kept, so that the calls made before it can
    be inspected. *)
Definition M (A : Type) : Type := World -> World * (exn + A).

Definition ret {A} (a : A) : M A := fun w => (w, inr a).

Definition raise {A} (e : exn) : M A := fun w => (w, inl e).

Definition bind {A B} (m : M A) (k : A -> M B) : M B := fun w =>
  match m w with
  | (w', inl e) => (w', inl e)
  | (w', inr a) => k a w'
  end.

(** A pure step that may raise. *)
Definition lift {A} (r : exn + A) : M A := fun w => (w, r).

(** Call a collaborator: log the call, run the oracle on the collaborator
    state, pass its exception on. *)
Definition call {A} (ev : Event) (o : Oracle A) : M A := fun w =>
  let '(x, r) := o (ext w) in
  ({| ext := x; qdrant := qdrant w; trace := trace w ++ [ev] |},
   match r with
   | inl e => inl (Propagated e)
   | inr a => inr a
   end).

(** [qdrant_client.delete(...)] on the store of the world. *)
Definition qdrant_delete (collection_name : string) (f : Qdrant.Filter) : M Qdrant.UpdateResult :=
  fun w =>
  let '(s, r) := Qdrant.delete collection_name f (qdrant w) in
  ({| ext := ext w; qdrant := s;
      trace := trace w ++ [EvQdrantDelete collection_name f] |},
   match r with
   | inl e => inl (Propagated e)
   | inr a => inr a
   end).

End Runtime.

Arguments Env : clear implicits.
Arguments World : clear implicits.
Arguments M : clear implicits.

#[global] Instance M_ret {W} : MRet (M W) := fun A => @ret W A.
#[global] Instance M_bind {W} : MBind (M W) := fun A B k m => @bind W A B m k.
#[global] Instance M_fmap {W} : FMap (M W) := fun A B f m => @bind W A B m (fun a => ret (f a)).

(** The module-level name [search] is the endpoint function; nothing in the
    module stores an attribute on it. *)
Definition search_function : FunctionObject :=
  {| fn_name := "search"; fn_dict := ∅ |}.

(** ** Pydantic constructors of the response models *)

(** [EmbeddingResponse(status=..., files=...)]: the status is looked up among
    the enum values and every file name has to be a string. *)
Definition EmbeddingResponse_init (status : string) (files : list (option string))
  : exn + EmbeddingResponse.t :=
  match Status_of_value status with
  | None => inl (ValidationError "status")
  | Some st =>
      match mapM id files with
      | None => inl (ValidationError "files")
      | Some names => inr (EmbeddingResponse.mk st names)
      end
  end.

(** [SearchResponse(text=..., page=..., source=..., score=...)] from metadata
    values: [page] goes through the validation of an [int] field and
    [source] through that of a [str] field; what these accept and what they
    make of it is pydantic's, and is taken from the environment.  A refused
    value raises the validation error of the model. *)
Definition SearchResponse_init (as_int : pyval -> option Z) (as_str : pyval -> option string)
    (text : string) (page source : pyval) (score : float) : exn + SearchResponse.t :=
  match as_int page, as_str source with
  | Some p, Some s => inr (SearchResponse.mk text p s score)
  | _, _ => inl (ValidationError "SearchResponse")
  end.

(** ** Paths (pathlib.PurePosixPath)

    A path is a root and its components.  Parsing a string drops empty
    components and "." components; a string that starts with exactly two
    slashes has the root "//", with one or with three and more the root "/".
    Joining with an absolute path gives that path; the text of a path without
    root and components is ".". *)
Module Posix.

Record Path := { root : string; parts : list string }.

Definition sep : Ascii.ascii := Ascii.Ascii true true true true false true false false.

Fixpoint split (acc : string) (s : string) : list string :=
  match s with
  | EmptyString => [acc]
  | String c rest =>
      if Ascii.eqb c sep then acc :: split EmptyString rest
      else split (acc +:+ String c EmptyString) rest
  end.

Definition kept (component : string) : bool :=
  negb (String.eqb component EmptyString || String.eqb component ".").

Definition root_of (s : string) : string :=
  match s with
  | String c1 (String c2 (String c3 _)) =>
      if Ascii.eqb c1 sep then
        if Ascii.eqb c2 sep then (if Ascii.eqb c3 sep then "/" else "//") else "/"
      else EmptyString
  | String c1 (String c2 EmptyString) =>
      if Ascii.eqb c1 sep then (if Ascii.eqb c2 sep then "//" else "/") else EmptyString
  | String c1 EmptyString => if Ascii.eqb c1 sep then "/" else EmptyString
  | EmptyString => EmptyString
  end.

Definition parse (s : string) : Path :=
  {| root := root_of s; parts := List.filter kept (split EmptyString s) |}.

(** [a / b] *)
Definition joinpath (a b : Path) : Path :=
  match root b with
  | EmptyString => {| root := root a; parts := parts a ++ parts b |}
  | _ => b
  end.

(** [str(p)] *)
Definition str (p : Path) : string :=
  match root p, parts p with
  | EmptyString, [] => "."
  | r, components => r +:+ String.concat "/" components
  end.

End Posix.

(** [tmp_dir / file_name], as text: [tmp_dir] is the text of the path that
    [create_tmp_folder] returned, [file_name] the name of the upload. *)
Definition path_join (tmp_dir file_name : string) : string :=
  Posix.str (Posix.joinpath (Posix.parse tmp_dir) (Posix.parse file_name)).

(** ** The endpoints of api.py *)
Module Api.

Section Endpoints.

Context {W : Type} (env : Env W).

(** [read_root] *)
Definition read_root : string :=
  "Welcome to the RAG Backend. Please navigate to /docs for the OpenAPI!".

(** [LLMContext(LLMStrategyFactory.get_strategy(strategy_type=..., token=...,
    collection_name=...))] *)
Definition new_context (strategy_type : LLMProvider) (token collection_name : option string)
  : M W LLMContext :=
  call (EvGetStrategy strategy_type token collection_name)
       (get_strategy env strategy_type token collection_name);;
  mret {| strategy_type := strategy_type;
          strategy_token := token;
          strategy_collection_name := collection_name |}.

Definition service_call {A} (service : LLMContext) (c : ServiceCall) (o : Oracle A) : M W A :=
  call (EvService service c) o.

Definition embedd_documents_wrapper (folder_name : option string) (service : LLMContext)
  : M W unit :=
  service_call service (EmbedDocuments (EmbedDirectory folder_name "*.pdf"))
    (service_embed_documents env service (EmbedDirectory folder_name "*.pdf")).

Definition create_collection (llm_provider : LLMProvider) (collection_name : string)
  : M W JSONResponse.t :=
  service ← new_context llm_provider (Some EmptyString) (Some collection_name);
  service_call service (CreateCollection collection_name)
    (service_create_collection env service collection_name);;
  mret (JSONResponse.mk [("message", "Collection " +:+ collection_name +:+ " created.")]).

(** The upload loop of [post_embedd_documents]. *)
Fixpoint save_documents (tmp_dir : option string) (files : list UploadFile.t)
    (file_names : list (option string)) : M W (list (option string)) :=
  match files with
  | [] => mret file_names
  | file :: rest =>
      let file_name := UploadFile.filename file in
      let file_names := file_names ++ [file_name] in
      match tmp_dir with
      | None => raise (ValueError "Please provide a temporary folder to save the files.")
      | Some dir =>
          there ← call (EvPathExists dir) (path_exists env dir);
          if negb there
          then raise (ValueError "Please provide a temporary folder to save the files.")
          else
            match file_name with
            | None => raise (ValueError "Please provide a file to save.")
            | Some name =>
                call (EvWriteFile (path_join dir name) (UploadFile.content file))
                     (write_file env (path_join dir name) (UploadFile.content file));;
                save_documents tmp_dir rest file_names
            end
      end
  end.

Definition post_embedd_documents (llm_backend : LLMBackend.t) (files : list UploadFile.t)
  : M W EmbeddingResponse.t :=
  token ← call (EvValidateToken (LLMBackend.token llm_backend) (ScopeBackend llm_backend)
                  (ALEPH_ALPHA_API_KEY env) (OPENAI_API_KEY env))
               (validate_token env (LLMBackend.token llm_backend) (ScopeBackend llm_backend)
                  (ALEPH_ALPHA_API_KEY env) (OPENAI_API_KEY env));
  tmp_dir ← call EvCreateTmpFolder (create_tmp_folder env);
  llm_context ← new_context ALEPH_ALPHA (Some token) (LLMBackend.collection_name llm_backend);
  file_names ← save_documents tmp_dir files [];
  embedd_documents_wrapper tmp_dir llm_context;;
  lift (EmbeddingResponse_init "success" file_names).

Definition embedd_text (embedding : EmbeddTextRequest.t) (llm_backend : LLMBackend.t)
  : M W EmbeddingResponse.t :=
  token ← call (EvValidateToken (LLMBackend.token llm_backend) (ScopeBackend llm_backend)
                  (ALEPH_ALPHA_API_KEY env) (OPENAI_API_KEY env))
               (validate_token env (LLMBackend.token llm_backend) (ScopeBackend llm_backend)
                  (ALEPH_ALPHA_API_KEY env) (OPENAI_API_KEY env));
  service ← new_context (LLMBackend.llm_provider llm_backend) (Some token)
              (LLMBackend.collection_name llm_backend);
  let args := EmbedText (EmbeddTextRequest.text embedding)
                (EmbeddTextRequest.file_name embedding)
                (EmbeddTextRequest.seperator embedding) in
  service_call service (EmbedDocuments args) (service_embed_documents env service args);;
  lift (EmbeddingResponse_init "success" [Some (EmbeddTextRequest.file_name embedding)]).

(** The upload loop of [embedd_text_files]: the name is checked before the
    folder. *)
Fixpoint save_text_files (tmp_dir : option string) (files : list UploadFile.t)
    (file_names : list (option string)) : M W (list (option string)) :=
  match files with
  | [] => mret file_names
  | file :: rest =>
      let file_name := UploadFile.filename file in
      let file_names := file_names ++ [file_name] in
      match file_name with
      | None => raise (ValueError "File does not have a valid name.")
      | Some name =>
          match tmp_dir with
          | None => raise (ValueError "Please provide a temporary folder to save the files.")
          | Some dir =>
              there ← call (EvPathExists dir) (path_exists env dir);
              if negb there
              then raise (ValueError "Please provide a temporary folder to save the files.")
              else
                call (EvWriteFile (path_join dir name) (UploadFile.content file))
                     (write_file env (path_join dir name) (UploadFile.content file));;
                save_text_files tmp_dir rest file_names
          end
      end
  end.

Definition embedd_text_files (embedding : EmbeddTextFilesRequest.t) (llm_backend : LLMBackend.t)
  : M W EmbeddingResponse.t :=
  tmp_dir ← call EvCreateTmpFolder (create_tmp_folder env);
  file_names ← save_text_files tmp_dir (EmbeddTextFilesRequest.files embedding) [];
  token ← call (EvValidateToken (LLMBackend.token llm_backend)
                  (ScopeProvider (LLMBackend.llm_provider llm_backend))
                  (ALEPH_ALPHA_API_KEY env) (OPENAI_API_KEY env))
               (validate_token env (LLMBackend.token llm_backend)
                  (ScopeProvider (LLMBackend.llm_provider llm_backend))
                  (ALEPH_ALPHA_API_KEY env) (OPENAI_API_KEY env));
  service ← new_context (LLMBackend.llm_provider llm_backend) (Some token)
              (LLMBackend.collection_name llm_backend);
  let args := EmbedFolder tmp_dir token (EmbeddTextFilesRequest.seperator embedding) in
  service_call service (EmbedDocuments args) (service_embed_documents env service args);;
  lift (EmbeddingResponse_init "success" file_names).

(** The response loop of [search]: one [SearchResponse] per document, in
    order; a metadata dictionary without ["page"] or ["source"] raises
    [KeyError]. *)
Fixpoint search_responses (docs : list (Document.t * float))
    (response : list SearchResponse.t) : exn + list SearchResponse.t :=
  match docs with
  | [] => inr response
  | d :: rest =>
      let score := d.2 in
      let text := Document.page_content d.1 in
      match Document.metadata d.1 !! "page" with
      | None => inl (KeyError "page")
      | Some page =>
          match Document.metadata d.1 !! "source" with
          | None => inl (KeyError "source")
          | Some source =>
              match SearchResponse_init (pydantic_int env) (pydantic_str env)
                      text page source score with
              | inl e => inl e
              | inr r => search_responses rest (response ++ [r])
              end
          end
      end
  end.

(** [search]: either the "No documents found." message or the list of
    results. *)
Definition search (search : SearchRequest.t) (llm_backend : LLMBackend.t)
    (filtering : Filtering.t) : M W (JSONResponse.t + list SearchResponse.t) :=
  token ← call (EvValidateToken (LLMBackend.token llm_backend)
                  (ScopeProvider (LLMBackend.llm_provider llm_backend))
                  (ALEPH_ALPHA_API_KEY env) (OPENAI_API_KEY env))
               (validate_token env (LLMBackend.token llm_backend)
                  (ScopeProvider (LLMBackend.llm_provider llm_backend))
                  (ALEPH_ALPHA_API_KEY env) (OPENAI_API_KEY env));
  let llm_backend := LLMBackend.set_token llm_backend token in
  service ← new_context (LLMBackend.llm_provider llm_backend) (LLMBackend.token llm_backend)
              (LLMBackend.collection_name llm_backend);
  docs ← service_call service (Search search (Some filtering))
           (service_search env service search (Some filtering));
  match docs with
  | [] => mret (inl (JSONResponse.mk [("message", "No documents found.")]))
  | _ :: _ =>
      response ← lift (search_responses docs []);
      mret (inr response)
  end.

Definition question_answer (rag : RAGRequest.t) (llm_backend : LLMBackend.t)
    (filtering : Filtering.t) : M W QAResponse.t :=
  match SearchRequest.query (RAGRequest.search rag) with
  | None => raise (ValueError "Please provide a Question.")
  | Some _ =>
      token ← call (EvValidateToken (LLMBackend.token llm_backend)
                      (ScopeProvider (LLMBackend.llm_provider llm_backend))
                      (ALEPH_ALPHA_API_KEY env) (OPENAI_API_KEY env))
                   (validate_token env (LLMBackend.token llm_backend)
                      (ScopeProvider (LLMBackend.llm_provider llm_backend))
                      (ALEPH_ALPHA_API_KEY env) (OPENAI_API_KEY env));
      service ← new_context (LLMBackend.llm_provider llm_backend) (Some token)
                  (LLMBackend.collection_name llm_backend);
      match RAGRequest.history rag with
      | [] => mret tt
      | _ :: _ =>
          text ← call (EvCombineText (RAGRequest.history rag))
                      (combine_text_from_list env (RAGRequest.history rag));
          service_call service (SummarizeText text EmptyString)
            (service_summarize_text env service text EmptyString);;
          mret tt
      end;;
      '(answer, prompt, meta_data) ←
        service_call service (Rag rag llm_backend filtering)
          (service_rag env service rag llm_backend filtering);
      mret (QAResponse.mk answer prompt meta_data)
  end.

(** A token read off a Python value. *)
Definition token_of_pyval (v : pyval) : option string :=
  match v with PStr s => Some s | PInt _ => None end.

Definition explain_question_answer (explain_request : ExplainQARequest.t)
    (llm_backend : LLMBackend.t) : M W ExplainQAResponse.t :=
  let rag_request := ExplainQARequest.rag_request explain_request in
  let request_search := RAGRequest.search rag_request in
  let request_backend := SearchRequest.llm_backend request_search in
  match SearchRequest.query request_search with
  | None => raise (ValueError "Please provide a Question.")
  | Some _ =>
      token ← call (EvValidateToken (LLMBackend.token request_backend)
                      (ScopeProvider (LLMBackend.llm_provider request_backend))
                      (ALEPH_ALPHA_API_KEY env) (OPENAI_API_KEY env))
                   (validate_token env (LLMBackend.token request_backend)
                      (ScopeProvider (LLMBackend.llm_provider request_backend))
                      (ALEPH_ALPHA_API_KEY env) (OPENAI_API_KEY env));
      (* explain_request.rag_request.search.llm_backend.token = ... *)
      let request_backend := LLMBackend.set_token request_backend token in
      let request_search := SearchRequest.set_llm_backend request_search request_backend in
      (* the keyword arguments of get_strategy, left to right; [search] is
         the module-level function *)
      let strategy_type := LLMBackend.llm_provider llm_backend in
      search_llm_backend ← lift (function_getattr search_function "llm_backend");
      search_token ← lift (pyval_getattr search_llm_backend "token");
      service ← new_context strategy_type (token_of_pyval search_token)
                  (LLMBackend.collection_name llm_backend);
      documents ← service_call service (Search request_search None)
                    (service_search env service request_search None);
      '(explanation, score, text, answer, meta_data) ←
        service_call service
          (ExplainQa (SearchRequest.query request_search)
             (ExplainQARequest.explain_threshold explain_request) documents
             (LLMBackend.token request_backend))
          (service_explain_qa env service (SearchRequest.query request_search)
             (ExplainQARequest.explain_threshold explain_request) documents
             (LLMBackend.token request_backend));
      mret (ExplainQAResponse.mk answer meta_data explanation text score)
  end.

Definition custom_prompt_llm (request : CustomPromptCompletion.t) : M W string :=
  let request_search := CustomPromptCompletion.search request in
  service ← new_context (LLMBackend.llm_provider (SearchRequest.llm_backend request_search))
              (LLMBackend.token (SearchRequest.llm_backend request_search))
              (SearchRequest.collection_name request_search);
  service_call service (Generate (CustomPromptCompletion.text request))
    (service_generate env service (CustomPromptCompletion.text request)).

(** The [if]/[elif] chain of [delete]. *)
Definition delete_collection (llm_provider : LLMProvider) : exn + string :=
  if decide (llm_provider = ALEPH_ALPHA) then inr "aleph-alpha"
  else if decide (llm_provider = OPENAI) then inr "openai"
  else if decide (llm_provider = GPT4ALL) then inr "gpt4all"
  else inl (ValueError ("Unsupported LLM provider: " +:+ format_provider llm_provider)).

(** The filter [delete] sends: two [must] conditions. *)
Definition delete_filter (page : Z) (source : string) : Qdrant.Filter :=
  {| Qdrant.must :=
       [ {| Qdrant.key := "metadata.page"; Qdrant.match_value := PInt page |};
         {| Qdrant.key := "metadata.source"; Qdrant.match_value := PStr source |} ] |}.

(** [delete]; an omitted [llm_provider] is [None] and takes the default of
    the signature. *)
Definition delete (page : Z) (source : string) (llm_provider : option LLMProvider)
  : M W Qdrant.UpdateResult :=
  let llm_provider := default OPENAI llm_provider in
  collection ← lift (delete_collection llm_provider);
  call EvLoadVecDbConn (load_vec_db_conn env);;
  result ← qdrant_delete collection (delete_filter page source);
  mret result.

End Endpoints.

End Api.

(** ** The route table

    One constructor per route of [app]; [handle] runs the endpoint a request
    is routed to and wraps what it returns. *)
Inductive Request :=
  | GetRoot
  | PostCollectionCreate (llm_provider : LLMProvider) (collection_name : string)
  | PostEmbeddingsDocuments (llm_backend : LLMBackend.t) (files : list UploadFile.t)
  | PostEmbeddingsText (embedding : EmbeddTextRequest.t) (llm_backend : LLMBackend.t)
  | PostEmbeddingsTextsFiles (embedding : EmbeddTextFilesRequest.t) (llm_backend : LLMBackend.t)
  | PostSemanticSearch (search : SearchRequest.t) (llm_backend : LLMBackend.t)
      (filtering : Filtering.t)
  | PostRag (rag : RAGRequest.t) (llm_backend : LLMBackend.t) (filtering : Filtering.t)
  | PostExplainQa (explain_request : ExplainQARequest.t) (llm_backend : LLMBackend.t)
  | PostCompletionCustom (request : CustomPromptCompletion.t)
  | DeleteEmbeddings (page : Z) (source : string) (llm_provider : option LLMProvider).

Inductive Response :=
  | RText (body : string)
  | RJson (body : JSONResponse.t)
  | REmbedding (body : EmbeddingResponse.t)
  | RSearch (body : list SearchResponse.t)
  | RQa (body : QAResponse.t)
  | RExplain (body : ExplainQAResponse.t)
  | RUpdate (body : Qdrant.UpdateResult).

Definition handle {W} (env : Env W) (r : Request) : M W Response :=
  match r with
  | GetRoot => mret (RText Api.read_root)
  | PostCollectionCreate p name => RJson <$> Api.create_collection env p name
  | PostEmbeddingsDocuments b files => REmbedding <$> Api.post_embedd_documents env b files
  | PostEmbeddingsText e b => REmbedding <$> Api.embedd_text env e b
  | PostEmbeddingsTextsFiles e b => REmbedding <$> Api.embedd_text_files env e b
  | PostSemanticSearch s b f =>
      out ← Api.search env s b f;
      mret (match out with inl msg => RJson msg | inr results => RSearch results end)
  | PostRag rag b f => RQa <$> Api.question_answer env rag b f
  | PostExplainQa e b => RExplain <$> Api.explain_question_answer env e b
  | PostCompletionCustom c => RText <$> Api.custom_prompt_llm env c
  | DeleteEmbeddings page source p => RUpdate <$> Api.delete env page source p
  end.

(** The [Status] a response carries, if it is of a model with that field. *)
Definition response_status (r : Response) : option Status :=
  match r with
  | REmbedding body => Some (EmbeddingResponse.status body)
  | _ => None
  end.

(** The file names an embedding request hands in. *)
Definition input_file_names (r : Request) : option (list (option string)) :=
  match r with
  | PostEmbeddingsDocuments _ files => Some (UploadFile.filename <$> files)
  | PostEmbeddingsText e _ => Some [Some (EmbeddTextRequest.file_name e)]
  | PostEmbeddingsTextsFiles e _ =>
      Some (UploadFile.filename <$> EmbeddTextFilesRequest.files e)
  | _ => None
  end.

(** ** Reading a trace *)

(** A world with an empty trace. *)
Definition fresh {W} (x : W) (s : Qdrant.Store) : World W :=
  {| ext := x; qdrant := s; trace := [] |}.

(** The provider of every strategy the factory was asked for. *)
Definition strategies_built (tr : list Event) : list LLMProvider :=
  omap (fun ev => match ev with EvGetStrategy p _ _ => Some p | _ => None end) tr.

(** The service object of every [embed_documents] call. *)
Definition embedding_contexts (tr : list Event) : list LLMContext :=
  omap (fun ev => match ev with
                  | EvService c (EmbedDocuments _) => Some c
                  | _ => None
                  end) tr.

(** The collection of every Qdrant delete request. *)
Definition deleted_from (tr : list Event) : list string :=
  omap (fun ev => match ev with EvQdrantDelete c _ => Some c | _ => None end) tr.

(** An environment whose [summarize_text] answers [f] of what the one of
    [env] answers, and is otherwise [env]. *)
Definition with_summary {W} (f : string -> string) (env : Env W) : Env W :=
  {| ALEPH_ALPHA_API_KEY := ALEPH_ALPHA_API_KEY env;
     OPENAI_API_KEY := OPENAI_API_KEY env;
     validate_token := validate_token env;
     create_tmp_folder := create_tmp_folder env;
     combine_text_from_list := combine_text_from_list env;
     path_exists := path_exists env;
     write_file := write_file env;
     get_strategy := get_strategy env;
     service_create_collection := service_create_collection env;
     service_embed_documents := service_embed_documents env;
     service_search := service_search env;
     service_summarize_text := fun c text token x =>
       match service_summarize_text env c text token x with
       | (x', inr summary) => (x', inr (f summary))
       | (x', inl e) => (x', inl e)
       end;
     service_rag := service_rag env;
     service_explain_qa := service_explain_qa env;
     service_generate := service_generate env;
     load_vec_db_conn := load_vec_db_conn env;
     pydantic_int := pydantic_int env;
     pydantic_str := pydantic_str env |}.

(** The store condition [delete] asks for, stated on the payload. *)
Definition metadata_matches (page : Z) (source : string) (p : Qdrant.PointStruct) : Prop :=
  Qdrant.payload_at "metadata.page" p = Some (Qdrant.JVal (PInt page)) /\
  Qdrant.payload_at "metadata.source" p = Some (Qdrant.JVal (PStr source)).

(** A search result carries what is stored with a document: its text and its
    score, and its page and source as the fields of the response model read
    the stored values. *)
Definition carries {W} (env : Env W) (d : Document.t * float) (r : SearchResponse.t) : Prop :=
  SearchResponse.text r = Document.page_content d.1 /\
  (exists page, Document.metadata d.1 !! "page" = Some page /\
                pydantic_int env page = Some (SearchResponse.page r)) /\
  (exists source, Document.metadata d.1 !! "source" = Some source /\
                  pydantic_str env source = Some (SearchResponse.source r)) /\
  SearchResponse.score r = d.2.

(** What the provider search answers to a [search] request in world [w]:
    token validation, strategy construction and [service.search], in this
    order; [None] if one of them raises. *)
Definition provider_search {W} (env : Env W) (s : SearchRequest.t) (b : LLMBackend.t)
    (f : Filtering.t) (w : World W) : option (list (Document.t * float)) :=
  match validate_token env (LLMBackend.token b) (ScopeProvider (LLMBackend.llm_provider b))
          (ALEPH_ALPHA_API_KEY env) (OPENAI_API_KEY env) (ext w) with
  | (x1, inr token) =>
      match get_strategy env (LLMBackend.llm_provider b) (Some token)
              (LLMBackend.collection_name b) x1 with
      | (x2, inr _) =>
          match service_search env
                  {| strategy_type := LLMBackend.llm_provider b;
                     strategy_token := Some token;
                     strategy_collection_name := LLMBackend.collection_name b |}
                  s (Some f) x2 with
          | (_, inr docs) => Some docs
          | _ => None
          end
      | _ => None
      end
  | _ => None
  end.

(** [x] may stand before [y] in a ranking: [y] does not score more. *)
Definition ranked_before (x y : Document.t * float) : Prop :=
  PrimFloat.leb y.2 x.2 = true.

(** A scored record above the zero-relevance floor. *)
Definition above_floor (x : Document.t * float) : Prop :=
  PrimFloat.ltb 0%float x.2 = true.

(** Scores never increase along the list. *)
Fixpoint descending (scores : list float) : bool :=
  match scores with
  | [] => true
  | a :: rest =>
      match rest with
      | [] => true
      | b :: _ => PrimFloat.leb b a && descending rest
      end
  end.

(** ** Parts of the design that the sources do not contain *)
Module Spec.

(** Modelled from the spec: the operation set of a provider handle (§4.1);
    the strategy classes of [agent/backend/LLMStrategy.py] are not part of
    the sources. *)
Inductive Operation :=
  | create_collection
  | embed_documents
  | search
  | answer
  | explain
  | summarize
  | complete.

Definition operation_set : list Operation :=
  [create_collection; embed_documents; search; answer; explain; summarize; complete].

Inductive SelectError :=
  | UnsupportedProviderError
  | MissingCredentialError.

Record ProviderHandle := {
  binding : LLMProvider;
  credential : option string;
  collection_name : string;
  operations : list Operation }.

(** Modelled from the spec: providers A and B are cloud-hosted, provider C is
    local (§3). *)
Definition cloud_hosted (p : LLMProvider) : bool :=
  match p with
  | ALEPH_ALPHA | OPENAI => true
  | GPT4ALL | OtherProvider _ => false
  end.

Definition recognised (p : LLMProvider) : bool :=
  match p with
  | ALEPH_ALPHA | OPENAI | GPT4ALL => true
  | OtherProvider _ => false
  end.

Definition non_empty (c : option string) : option string :=
  match c with
  | Some EmptyString | None => None
  | Some c => Some c
  end.

(** Modelled from the spec: credential resolution (§4.1): "explicit value,
    then fallback, else error"; a credential "must be non-empty". *)
Definition resolve_credential (explicit fallback : option string) : option string :=
  match non_empty explicit with
  | Some c => Some c
  | None => non_empty fallback
  end.

(** Modelled from the spec: [LLMStrategyFactory.get_strategy], the
    [select(provider_id, credential, collection_name)] of §4.1, is not part
    of the sources.  An unrecognised identifier fails with
    [UnsupportedProviderError]; a cloud provider without a resolvable
    credential fails with [MissingCredentialError]; the local provider
    ignores the credential; the handle exposes the same operation set for
    every provider. *)
Definition select (provider_id : LLMProvider) (explicit fallback : option string)
    (collection : string) : SelectError + ProviderHandle :=
  if negb (recognised provider_id) then inl UnsupportedProviderError
  else if cloud_hosted provider_id then
    match resolve_credential explicit fallback with
    | None => inl MissingCredentialError
    | Some c =>
        inr {| binding := provider_id; credential := Some c;
               collection_name := collection; operations := operation_set |}
    end
  else
    inr {| binding := provider_id; credential := None;
           collection_name := collection; operations := operation_set |}.

(** A retrieved span with the attribution score the provider computed. *)
Record Span := {
  span_text : string;
  attribution_score : float }.

(** Modelled from the spec: [explain_qa] of the service is not part of the
    sources.  §4.3, step 4: "spans scoring below threshold are excluded from
    the returned explanation"; the spans that stay keep their order. *)
Definition explained_spans (explain_threshold : float) (spans : list Span) : list Span :=
  List.filter (fun s => negb (PrimFloat.ltb (attribution_score s) explain_threshold)) spans.

(** Modelled from the spec: the candidates of a search (§4.2), the records
    that pass the metadata filter and whose similarity is above the
    zero-relevance floor. *)
Definition relevant (similarity : Document.t -> float) (passes : Document.t -> bool)
    (d : Document.t) : bool :=
  passes d && PrimFloat.ltb 0%float (similarity d).

(** Modelled from the spec: the order of the results (§4.2).  A scored
    record goes into a ranking before the first one that scores strictly
    less, so that of two records with the same score the one inserted first
    comes first. *)
Fixpoint rank_insert (x : Document.t * float) (ranked : list (Document.t * float))
  : list (Document.t * float) :=
  match ranked with
  | [] => [x]
  | y :: rest =>
      if PrimFloat.ltb y.2 x.2 then x :: ranked else y :: rank_insert x rest
  end.

Definition rank (found : list (Document.t * float)) : list (Document.t * float) :=
  fold_left (fun ranked x => rank_insert x ranked) found [].

(** Modelled from the spec: [service.search], the provider search behind the
    endpoint, is not part of the sources.  §4.2,
    [search(collection, query_vector, top_k, metadata_filter)]: "returns up to
    top_k Search Results ordered by descending score; ties broken by
    insertion order (first-inserted wins); an empty store or no matches above
    an implicit zero-relevance floor returns an empty sequence, never an
    error".  [records] is the collection in insertion order, [similarity]
    the score of a record against the query vector, [passes] the metadata
    filter. *)
Definition gateway_search (similarity : Document.t -> float) (passes : Document.t -> bool)
    (top_k : nat) (records : list Document.t) : list (Document.t * float) :=
  take top_k
    (rank ((fun d => (d, similarity d)) <$> List.filter (relevant similarity passes) records)).

End Spec.

(** ** A test double

    Collaborators over a trivial state that always answer: the explicit
    token or else the Aleph Alpha key, an existing temporary folder, a search
    that finds [docs], a summary, and a prompt made of the instruction, the
    request's own history and the query.  Its [int] field takes integers and
    strings of decimal digits, its [str] field takes strings. *)
(** A string of decimal digits as a number. *)
Fixpoint decimal_digits (acc : Z) (s : string) : option Z :=
  match s with
  | EmptyString => Some acc
  | String c rest =>
      let n := Z.of_nat (Ascii.nat_of_ascii c) in
      if (48 <=? n) && (n <=? 57) then decimal_digits (10 * acc + (n - 48)) rest
      else None
  end.

Definition decimal (s : string) : option Z :=
  match s with
  | EmptyString => None
  | _ => decimal_digits 0 s
  end.

Definition stub_prompt (rag : RAGRequest.t) : string :=
  "Answer from the context."
  +:+ String.concat EmptyString (RAGRequest.history rag)
  +:+ default EmptyString (SearchRequest.query (RAGRequest.search rag)).

Definition stub_env (docs : list (Document.t * float)) : Env unit :=
  {| ALEPH_ALPHA_API_KEY := Some "aa-key";
     OPENAI_API_KEY := None;
     validate_token := fun token _ aa _ x =>
       match token, aa with
       | Some t, _ | None, Some t => (x, inr t)
       | None, None => (x, inl (PyExn "ValueError" "No token provided."))
       end;
     create_tmp_folder := fun x => (x, inr (Some "tmp"));
     combine_text_from_list := fun texts x => (x, inr (String.concat " " texts));
     path_exists := fun _ x => (x, inr true);
     write_file := fun _ _ x => (x, inr tt);
     get_strategy := fun _ _ _ x => (x, inr tt);
     service_create_collection := fun _ _ x => (x, inr tt);
     service_embed_documents := fun _ _ x => (x, inr tt);
     service_search := fun _ _ _ x => (x, inr docs);
     service_summarize_text := fun _ _ _ x => (x, inr "summary");
     service_rag := fun _ rag _ _ x => (x, inr ("answer", stub_prompt rag, None));
     service_explain_qa := fun _ _ _ _ _ x =>
       (x, inr ("explanation", 1%float, "text", "answer", None));
     service_generate := fun _ text x => (x, inr text);
     load_vec_db_conn := fun x => (x, inr tt);
     pydantic_int := fun v =>
       match v with PInt z => Some z | PStr s => decimal s end;
     pydantic_str := fun v =>
       match v with PStr s => Some s | PInt _ => None end |}.

Definition openai_backend : LLMBackend.t :=
  LLMBackend.mk OPENAI (Some "sk-1") (Some "docs").

Definition sky_request (query : option string) : SearchRequest.t :=
  SearchRequest.mk query openai_backend None.

Definition no_filtering : Filtering.t := Filtering.mk [].

Definition sky_document : Document.t * float :=
  (Document.mk "The sky is blue" {[ "page" := PInt 3; "source" := PStr "doc.pdf" ]},
   0.75%float).

(** A stored point as the embedding step writes it. *)
Definition point (n page : Z) (source : string) : Qdrant.PointStruct :=
  {| Qdrant.id := n;
     Qdrant.vector := [];
     Qdrant.payload :=
       Qdrant.JObj
         [ ("page_content", Qdrant.JVal (PStr "text"));
           ("metadata", Qdrant.JObj [ ("page", Qdrant.JVal (PInt page));
                                      ("source", Qdrant.JVal (PStr source)) ]) ] |}.

Definition store_of (openai_points : list Qdrant.PointStruct) : Qdrant.Store :=
  {| Qdrant.collections :=
       {[ "aleph-alpha" := [point 7 3 "doc.pdf"];
          "openai" := openai_points;
          "gpt4all" := [] ]};
     Qdrant.operation_ids := fun _ => 0;
     Qdrant.operations := 0%nat |}.

(** The requests and stores the examples run on. *)
Definition one_pdf : list UploadFile.t := [UploadFile.mk (Some "a.pdf") "%PDF"].

Definition talk : RAGRequest.t :=
  RAGRequest.mk (sky_request (Some "sky color")) ["Hi"; "Hello"].

Definition openai_context : LLMContext :=
  {| strategy_type := OPENAI; strategy_token := Some "sk-1";
     strategy_collection_name := Some "docs" |}.

Definition explain_sky : ExplainQARequest.t :=
  ExplainQARequest.mk (RAGRequest.mk (sky_request (Some "sky color")) []) 0.5%float.

Definition note : EmbeddTextRequest.t :=
  EmbeddTextRequest.mk "The sky is blue." "sky.txt" ".".

Definition two_on_page_3 : list Qdrant.PointStruct :=
  [point 1 3 "doc.pdf"; point 2 4 "doc.pdf"; point 3 3 "doc.pdf"; point 4 3 "other.pdf"].

Definition half : Spec.Span :=
  {| Spec.span_text := "on the line"; Spec.attribution_score := 0.5%float |}.

Definition below_half : Spec.Span :=
  {| Spec.span_text := "under the line"; Spec.attribution_score := 0x1.f5c28f5c28f5cp-2%float |}.

(** A collection in insertion order, and a similarity that reads the page:
    page 3 scores 0.75, page 4 scores 0.875, every other page is below the
    floor. *)
Definition shelf : list Document.t :=
  [ Document.mk "The sky is blue" {[ "page" := PInt 3; "source" := PStr "doc.pdf" ]};
    Document.mk "Nothing here" {[ "page" := PInt 9; "source" := PStr "doc.pdf" ]};
    Document.mk "The sea is deep" {[ "page" := PStr "4"; "source" := PStr "doc.pdf" ]} ].

Definition page_similarity (d : Document.t) : float :=
  match Document.metadata d !! "page" with
  | Some (PInt 3) => 0.75%float
  | Some (PStr "4") => 0.875%float
  | _ => 0%float
  end.

(** The two fixed answers of the endpoints that the statements name. *)
Definition no_documents_found : JSONResponse.t :=
  JSONResponse.mk [("message", "No documents found.")].

Definition no_llm_backend_attribute : exn :=
  AttributeError "'function' object has no attribute 'llm_backend'".

(** ** More readings of a trace *)

(** The files written, as path and data. *)
Definition writes (tr : list Event) : list (string * string) :=
  omap (fun ev => match ev with EvWriteFile p d => Some (p, d) | _ => None end) tr.

(** The [embed_documents] calls, with the service object they went to. *)
Definition embed_calls (tr : list Event) : list (LLMContext * EmbedArgs) :=
  omap (fun ev => match ev with
                  | EvService c (EmbedDocuments a) => Some (c, a)
                  | _ => None
                  end) tr.

(** The [llm_backend] argument of every [validate_token] call. *)
Definition credential_calls (tr : list Event) : list TokenScope :=
  omap (fun ev => match ev with EvValidateToken _ sc _ _ => Some sc | _ => None end) tr.

(** The service object of every call on a service. *)
Definition service_contexts (tr : list Event) : list LLMContext :=
  omap (fun ev => match ev with EvService c _ => Some c | _ => None end) tr.

(** Text and token of every [summarize_text] call. *)
Definition summaries (tr : list Event) : list (string * string) :=
  omap (fun ev => match ev with
                  | EvService _ (SummarizeText text token) => Some (text, token)
                  | _ => None
                  end) tr.

(** The request of every [rag] call. *)
Definition rag_calls (tr : list Event) : list RAGRequest.t :=
  omap (fun ev => match ev with EvService _ (Rag rag _ _) => Some rag | _ => None end) tr.

(** The calls of the upload loops. *)
Definition fs_event (ev : Event) : Prop :=
  match ev with
  | EvPathExists _ | EvWriteFile _ _ => True
  | _ => False
  end.

(** Where an upload goes: the folder joined with its own name. *)
Definition upload_target (dir : string) (file : UploadFile.t) : option (string * string) :=
  name ← UploadFile.filename file;
  Some (path_join dir name, UploadFile.content file).

(** What the uploads with a name amount to in folder [tmp_dir]. *)
Definition uploads_in (tmp_dir : option string) (files : list UploadFile.t)
  : list (string * string) :=
  match tmp_dir with
  | None => []
  | Some dir => omap (upload_target dir) files
  end.

(** An upload is saved as a write when the write goes to the path
    [tmp_dir / filename] with the content of the upload. *)
Definition saved_as (tmp_dir : option string) (file : UploadFile.t) (wr : string * string)
  : Prop :=
  exists dir name,
    tmp_dir = Some dir /\
    UploadFile.filename file = Some name /\
    wr = (path_join dir name, UploadFile.content file).

(** The backend object of the requests that come with one and use it for the
    strategy. *)
Definition request_backend (r : Request) : option LLMBackend.t :=
  match r with
  | PostEmbeddingsText _ b
  | PostEmbeddingsTextsFiles _ b
  | PostSemanticSearch _ b _
  | PostRag _ b _ => Some b
  | _ => None
  end.

(** The test double with a chosen temporary folder, summary answer and
    connection answer. *)
Definition stub_env_with (tmp_dir : option string) (summary : py_exn + string)
    (connection : py_exn + unit) : Env unit :=
  {| ALEPH_ALPHA_API_KEY := ALEPH_ALPHA_API_KEY (stub_env []);
     OPENAI_API_KEY := OPENAI_API_KEY (stub_env []);
     validate_token := validate_token (stub_env []);
     create_tmp_folder := fun x => (x, inr tmp_dir);
     combine_text_from_list := combine_text_from_list (stub_env []);
     path_exists := path_exists (stub_env []);
     write_file := write_file (stub_env []);
     get_strategy := get_strategy (stub_env []);
     service_create_collection := service_create_collection (stub_env []);
     service_embed_documents := service_embed_documents (stub_env []);
     service_search := service_search (stub_env []);
     service_summarize_text := fun _ _ _ x => (x, summary);
     service_rag := service_rag (stub_env []);
     service_explain_qa := service_explain_qa (stub_env []);
     service_generate := service_generate (stub_env []);
     load_vec_db_conn := fun x => (x, connection);
     pydantic_int := pydantic_int (stub_env []);
     pydantic_str := pydantic_str (stub_env []) |}.

Definition timed_out : py_exn := PyExn "TimeoutError" "timed out".

Definition nameless : UploadFile.t := UploadFile.mk None "data".

Definition escaping : UploadFile.t := UploadFile.mk (Some "/etc/cron.d/x") "job".

Definition two_texts : EmbeddTextFilesRequest.t :=
  EmbeddTextFilesRequest.mk
    [UploadFile.mk (Some "a.txt") "alpha"; UploadFile.mk (Some "b.txt") "beta"] ".".

Definition pageless_document : Document.t * float :=
  (Document.mk "No page here" {[ "source" := PStr "doc.pdf" ]}, 0.5%float).

Definition ask : CustomPromptCompletion.t :=
  CustomPromptCompletion.mk "Say hi" (SearchRequest.mk None openai_backend (Some "custom")).

(** * Proofs *)

(** ** Running endpoint scripts *)

Ltac unfold_monad :=
  unfold mbind, mret, fmap, M_bind, M_ret, M_fmap, bind, ret, raise, lift,
    Api.service_call, Api.new_context, call in *.

(** Case analysis on the next collaborator answer. *)
Ltac oracle_step :=
  match goal with
  | |- context [ validate_token ?e ?a ?b ?c ?d ?x ] =>
      destruct (validate_token e a b c d x) as [? [?|?]]
  | |- context [ get_strategy ?e ?a ?b ?c ?x ] =>
      destruct (get_strategy e a b c x) as [? [?|[]]]
  | |- context [ create_tmp_folder ?e ?x ] =>
      destruct (create_tmp_folder e x) as [? [?|?]]
  | |- context [ combine_text_from_list ?e ?a ?x ] =>
      destruct (combine_text_from_list e a x) as [? [?|?]]
  | |- context [ path_exists ?e ?a ?x ] =>
      destruct (path_exists e a x) as [? [?|[]]]
  | |- context [ write_file ?e ?a ?b ?x ] =>
      destruct (write_file e a b x) as [? [?|[]]]
  | |- context [ service_create_collection ?e ?a ?b ?x ] =>
      destruct (service_create_collection e a b x) as [? [?|[]]]
  | |- context [ service_embed_documents ?e ?a ?b ?x ] =>
      destruct (service_embed_documents e a b x) as [? [?|[]]]
  | |- context [ service_search ?e ?a ?b ?c ?x ] =>
      destruct (service_search e a b c x) as [? [?|?]]
  | |- context [ service_summarize_text ?e ?a ?b ?c ?x ] =>
      destruct (service_summarize_text e a b c x) as [? [?|?]]
  | |- context [ service_rag ?e ?a ?b ?c ?d ?x ] =>
      destruct (service_rag e a b c d x) as [? [?|[[? ?] ?]]]
  | |- context [ service_explain_qa ?e ?a ?b ?c ?d ?f ?x ] =>
      destruct (service_explain_qa e a b c d f x) as [? [?|[[[[? ?] ?] ?] ?]]]
  | |- context [ service_generate ?e ?a ?b ?x ] =>
      destruct (service_generate e a b x) as [? [?|?]]
  | |- context [ load_vec_db_conn ?e ?x ] =>
      destruct (load_vec_db_conn e x) as [? [?|[]]]
  end; simpl.

Ltac step := repeat (progress (unfold_monad; simpl)); oracle_step.

Ltac run := repeat (progress (unfold_monad; simpl) || oracle_step).

(** ** Strategy construction in the embedding endpoints *)

Lemma strategies_built_app tr ev :
  strategies_built (tr ++ [ev]) =
  strategies_built tr ++ strategies_built [ev].
Proof. unfold strategies_built. apply omap_app. Qed.

Lemma embedding_contexts_app tr ev :
  embedding_contexts (tr ++ [ev]) =
  embedding_contexts tr ++ embedding_contexts [ev].
Proof. unfold embedding_contexts. apply omap_app. Qed.

(** The upload loop only touches the file system. *)
Lemma save_documents_trace {W} (env : Env W) tmp_dir files names w :
  strategies_built (trace (Api.save_documents env tmp_dir files names w).1) =
    strategies_built (trace w) /\
  embedding_contexts (trace (Api.save_documents env tmp_dir files names w).1) =
    embedding_contexts (trace w).
Proof.
  revert names w. induction files as [|file rest IH]; intros names w; [done|].
  simpl. destruct tmp_dir as [dir|]; [|done].
  unfold_monad. simpl.
  destruct (path_exists env dir (ext w)) as [x [e|there]]; simpl.
  { rewrite strategies_built_app, embedding_contexts_app. simpl.
    by rewrite !app_nil_r. }
  destruct there; simpl.
  2: { rewrite strategies_built_app, embedding_contexts_app. simpl.
       by rewrite !app_nil_r. }
  destruct (UploadFile.filename file) as [name|]; simpl.
  2: { rewrite strategies_built_app, embedding_contexts_app. simpl.
       by rewrite !app_nil_r. }
  destruct (write_file env _ _ x) as [x' [e|[]]]; simpl.
  - rewrite !strategies_built_app, !embedding_contexts_app. simpl.
    by rewrite !app_nil_r.
  - destruct (IH (names ++ [Some name])
                {| ext := x'; qdrant := qdrant w;
                   trace := (trace w ++ [EvPathExists dir]) ++
                            [EvWriteFile (path_join dir name) (UploadFile.content file)] |})
      as [IH1 IH2].
    rewrite IH1, IH2. simpl.
    rewrite !strategies_built_app, !embedding_contexts_app. simpl.
    by rewrite !app_nil_r.
Qed.

(** Whatever provider the request names, [post_embedd_documents] asks the
    factory for an Aleph Alpha strategy and embeds with it. *)
Lemma post_embedd_documents_fixed_provider {W} (env : Env W) b files x s :
  Forall (fun p => p = ALEPH_ALPHA)
    (strategies_built (trace (Api.post_embedd_documents env b files (fresh x s)).1)) /\
  Forall (fun c => strategy_type c = ALEPH_ALPHA)
    (embedding_contexts (trace (Api.post_embedd_documents env b files (fresh x s)).1)).
Proof.
  unfold Api.post_embedd_documents, Api.embedd_documents_wrapper.
  step; [by split; constructor|].
  step; [by split; constructor|].
  step; [by split; repeat constructor|].
  match goal with
  | |- context [ Api.save_documents env ?d files [] ?w0 ] =>
      pose proof (save_documents_trace env d files [] w0) as [H1 H2];
      destruct (Api.save_documents env d files [] w0) as [wl [e|names]]
  end; simpl in *.
  { rewrite H1, H2. simpl. by split; repeat constructor. }
  step.
  all: try (destruct (EmbeddingResponse_init _ _); simpl).
  all: rewrite strategies_built_app, embedding_contexts_app, H1, H2; simpl.
  all: by split; repeat constructor.
Qed.

(** C1: a document-embedding request for the OpenAI backend is embedded with
    an Aleph Alpha strategy: the factory is asked for [ALEPH_ALPHA], and the
    service object that receives [embed_documents] is bound to it. *)
Theorem post_embedd_documents_ignores_requested_provider :
  LLMBackend.llm_provider openai_backend = OPENAI /\
  (Api.post_embedd_documents (stub_env []) openai_backend one_pdf
     (fresh () (store_of []))).2 = inr (EmbeddingResponse.mk SUCCESS ["a.pdf"]) /\
  trace (Api.post_embedd_documents (stub_env []) openai_backend one_pdf
           (fresh () (store_of []))).1 =
    [ EvValidateToken (Some "sk-1") (ScopeBackend openai_backend) (Some "aa-key") None;
      EvCreateTmpFolder;
      EvGetStrategy ALEPH_ALPHA (Some "sk-1") (Some "docs");
      EvPathExists "tmp";
      EvWriteFile "tmp/a.pdf" "%PDF";
      EvService {| strategy_type := ALEPH_ALPHA; strategy_token := Some "sk-1";
                   strategy_collection_name := Some "docs" |}
        (EmbedDocuments (EmbedDirectory (Some "tmp") "*.pdf")) ].
Proof. repeat split. Qed.

(** The sibling endpoint [embedd_text] builds the strategy of the requested
    provider. *)
Lemma embedd_text_requested_provider {W} (env : Env W) e b x s :
  Forall (fun p => p = LLMBackend.llm_provider b)
    (strategies_built (trace (Api.embedd_text env e b (fresh x s)).1)).
Proof.
  unfold Api.embedd_text. run.
  all: repeat (destruct (EmbeddingResponse_init _ _); simpl).
  all: repeat constructor.
Qed.

(** ** The answer endpoint *)

(** C2: a request without a query is refused with the missing-query error
    in the world it arrived in: no collaborator was called, neither for the
    credential nor on the network.  A request with a query never ends in that
    error. *)
Theorem question_answer_query_guard {W} (env : Env W) rag b f w :
  match SearchRequest.query (RAGRequest.search rag) with
  | None =>
      Api.question_answer env rag b f w = (w, inl (ValueError "Please provide a Question."))
  | Some _ =>
      (Api.question_answer env rag b f w).2 ≠ inl (ValueError "Please provide a Question.")
  end.
Proof.
  unfold Api.question_answer.
  destruct (SearchRequest.query (RAGRequest.search rag)); [|reflexivity].
  destruct (RAGRequest.history rag); run; discriminate.
Qed.

(** With a query, the first thing the endpoint does is to resolve the
    credential. *)
Lemma question_answer_starts_with_token {W} (env : Env W) rag b f x s q :
  SearchRequest.query (RAGRequest.search rag) = Some q ->
  head (trace (Api.question_answer env rag b f (fresh x s)).1) =
    Some (EvValidateToken (LLMBackend.token b) (ScopeProvider (LLMBackend.llm_provider b))
            (ALEPH_ALPHA_API_KEY env) (OPENAI_API_KEY env)).
Proof.
  intros Hq. unfold Api.question_answer. rewrite Hq.
  destruct (RAGRequest.history rag); run; reflexivity.
Qed.

(** The text [summarize_text] answers does not reach anything: the run of
    the endpoint, its response and the calls it makes are the same for every
    summary. *)
Lemma question_answer_summary_unused {W} (env : Env W) g rag b f w :
  Api.question_answer (with_summary g env) rag b f w = Api.question_answer env rag b f w.
Proof.
  unfold Api.question_answer.
  destruct (SearchRequest.query (RAGRequest.search rag)); [|reflexivity].
  destruct (RAGRequest.history rag); run; reflexivity.
Qed.

(** C3: with a history, the endpoint does ask for a summary before the
    answer pipeline, but drops what it gets: [rag] is called with the request
    as it came in, and the response is the same for every summary text. *)
Theorem question_answer_drops_summary :
  (forall g,
     Api.question_answer (with_summary g (stub_env [])) talk openai_backend no_filtering
       (fresh () (store_of [])) =
     Api.question_answer (stub_env []) talk openai_backend no_filtering
       (fresh () (store_of []))) /\
  (Api.question_answer (stub_env []) talk openai_backend no_filtering
     (fresh () (store_of []))).2 =
    inr (QAResponse.mk "answer" "Answer from the context.HiHellosky color" None) /\
  trace (Api.question_answer (stub_env []) talk openai_backend no_filtering
           (fresh () (store_of []))).1 =
    [ EvValidateToken (Some "sk-1") (ScopeProvider OPENAI) (Some "aa-key") None;
      EvGetStrategy OPENAI (Some "sk-1") (Some "docs");
      EvCombineText ["Hi"; "Hello"];
      EvService openai_context (SummarizeText "Hi Hello" EmptyString);
      EvService openai_context (Rag talk openai_backend no_filtering) ].
Proof.
  split; [|split; reflexivity].
  intros g. apply question_answer_summary_unused.
Qed.

(** ** The explain endpoint *)

(** Every run of the explain endpoint, case by case. *)
Lemma explain_question_answer_run {W} (env : Env W) e b w :
  let request_backend :=
    SearchRequest.llm_backend (RAGRequest.search (ExplainQARequest.rag_request e)) in
  let credential_call :=
    EvValidateToken (LLMBackend.token request_backend)
      (ScopeProvider (LLMBackend.llm_provider request_backend))
      (ALEPH_ALPHA_API_KEY env) (OPENAI_API_KEY env) in
  match SearchRequest.query (RAGRequest.search (ExplainQARequest.rag_request e)) with
  | None =>
      Api.explain_question_answer env e b w =
        (w, inl (ValueError "Please provide a Question."))
  | Some _ =>
      match validate_token env (LLMBackend.token request_backend)
              (ScopeProvider (LLMBackend.llm_provider request_backend))
              (ALEPH_ALPHA_API_KEY env) (OPENAI_API_KEY env) (ext w) with
      | (x, inl err) =>
          Api.explain_question_answer env e b w =
            ({| ext := x; qdrant := qdrant w; trace := trace w ++ [credential_call] |},
             inl (Propagated err))
      | (x, inr _) =>
          Api.explain_question_answer env e b w =
            ({| ext := x; qdrant := qdrant w; trace := trace w ++ [credential_call] |},
             inl no_llm_backend_attribute)
      end
  end.
Proof.
  unfold Api.explain_question_answer. simpl.
  destruct (SearchRequest.query _); [|reflexivity].
  unfold_monad. simpl.
  destruct (validate_token env _ _ _ _ (ext w)) as [x [err|token]]; reflexivity.
Qed.

(** C8: when the query is present and the token validates, the explain
    endpoint raises the attribute error of the function object [search]
    while it builds the arguments of the strategy factory; the only call made
    is the credential one, so no strategy was built and no search was run.
    And whatever the request, the endpoint ends in an exception: it never
    returns an explanation. *)
Theorem explain_question_answer_always_raises {W} (env : Env W) e b w :
  let request_backend :=
    SearchRequest.llm_backend (RAGRequest.search (ExplainQARequest.rag_request e)) in
  let credential_call :=
    EvValidateToken (LLMBackend.token request_backend)
      (ScopeProvider (LLMBackend.llm_provider request_backend))
      (ALEPH_ALPHA_API_KEY env) (OPENAI_API_KEY env) in
  (forall q token x,
     SearchRequest.query (RAGRequest.search (ExplainQARequest.rag_request e)) = Some q ->
     validate_token env (LLMBackend.token request_backend)
       (ScopeProvider (LLMBackend.llm_provider request_backend))
       (ALEPH_ALPHA_API_KEY env) (OPENAI_API_KEY env) (ext w) = (x, inr token) ->
     Api.explain_question_answer env e b w =
       ({| ext := x; qdrant := qdrant w; trace := trace w ++ [credential_call] |},
        inl no_llm_backend_attribute)) /\
  (exists err, (Api.explain_question_answer env e b w).2 = inl err).
Proof.
  pose proof (explain_question_answer_run env e b w) as H. simpl in *. split.
  - intros q token x Hq Hv. rewrite Hq, Hv in H. exact H.
  - destruct (SearchRequest.query _).
    + destruct (validate_token env _ _ _ _ (ext w)) as [x [err|token]];
        rewrite H; eauto.
    + rewrite H. eauto.
Qed.

Lemma explain_question_answer_always_raises_witness :
  Api.explain_question_answer (stub_env [sky_document]) explain_sky openai_backend
    (fresh () (store_of [])) =
  ({| ext := (); qdrant := store_of [];
      trace := [EvValidateToken (Some "sk-1") (ScopeProvider OPENAI) (Some "aa-key") None] |},
   inl no_llm_backend_attribute).
Proof.
  apply (proj1 (explain_question_answer_always_raises (stub_env [sky_document])
                  explain_sky openai_backend (fresh () (store_of [])))
           "sky color" "sk-1" ()); reflexivity.
Defined.

(** ** The search endpoint *)

Lemma SearchResponse_init_carries as_int as_str text page source score r :
  SearchResponse_init as_int as_str text page source score = inr r <->
  r = SearchResponse.mk text (SearchResponse.page r) (SearchResponse.source r) score /\
  as_int page = Some (SearchResponse.page r) /\
  as_str source = Some (SearchResponse.source r).
Proof.
  unfold SearchResponse_init. split.
  - destruct (as_int page), (as_str source); intros [= <-]; done.
  - intros (-> & -> & ->). done.
Qed.

(** The response loop succeeds on documents the response model accepts ... *)
Lemma search_responses_complete {W} (env : Env W) docs rs :
  Forall2 (carries env) docs rs ->
  forall acc, Api.search_responses env docs acc = inr (acc ++ rs).
Proof.
  induction 1 as [|d r docs rs (Ht & (page & Hp & Hpi) & (source & Hs & Hsi) & Hsc) _ IH];
    intros acc; simpl.
  - by rewrite app_nil_r.
  - rewrite Hp, Hs. unfold SearchResponse_init. rewrite Hpi, Hsi, IH, <- Ht, <- Hsc.
    destruct r. simpl. by rewrite <- app_assoc.
Qed.

(** ... and what it returns carries what is stored, in the same order. *)
Lemma search_responses_sound {W} (env : Env W) docs :
  forall acc out, Api.search_responses env docs acc = inr out ->
  exists rs, out = acc ++ rs /\ Forall2 (carries env) docs rs.
Proof.
  induction docs as [|d docs IH]; intros acc out; simpl.
  - intros [= <-]. exists []. by rewrite app_nil_r.
  - destruct (Document.metadata d.1 !! "page") as [page|] eqn:Hp; [|done].
    destruct (Document.metadata d.1 !! "source") as [source|] eqn:Hs; [|done].
    destruct (SearchResponse_init _ _ _ page source d.2) as [e|r] eqn:Hr; [done|].
    intros H. apply IH in H as (rs & -> & Hrs).
    apply SearchResponse_init_carries in Hr as (Hr & Hpi & Hsi).
    exists (r :: rs). split; [by rewrite <- app_assoc|].
    constructor; [|done]. rewrite Hr. simpl. repeat split; eauto.
Qed.

Lemma carries_scores {W} (env : Env W) docs rs :
  Forall2 (carries env) docs rs -> SearchResponse.score <$> rs = snd <$> docs.
Proof.
  induction 1 as [|d r docs rs (_ & _ & _ & Hsc) _ IH]; [done|].
  rewrite !fmap_cons. congruence.
Qed.

(** A stored integer page and string source are carried as they are by every
    response model that keeps integers and strings. *)
Lemma carries_stored {W} (env : Env W) text page source score md :
  pydantic_int env (PInt page) = Some page ->
  pydantic_str env (PStr source) = Some source ->
  md !! "page" = Some (PInt page) ->
  md !! "source" = Some (PStr source) ->
  carries env (Document.mk text md, score) (SearchResponse.mk text page source score).
Proof. intros Hi Hs Hp Hsrc. repeat split; simpl; eauto. Qed.

(** What [search] answers once the provider search has answered [docs]. *)
Lemma search_after_provider {W} (env : Env W) s b f w docs :
  provider_search env s b f w = Some docs ->
  (Api.search env s b f w).2 =
    match docs with
    | [] => inr (inl (JSONResponse.mk [("message", "No documents found.")]))
    | _ :: _ =>
        match Api.search_responses env docs [] with
        | inl e => inl e
        | inr rs => inr (inr rs)
        end
    end.
Proof.
  unfold provider_search, Api.search. repeat (progress (unfold_monad; simpl)).
  destruct (validate_token env _ _ _ _ (ext w)) as [x1 [e|token]]; [done|]. simpl.
  destruct (get_strategy env _ _ _ x1) as [x2 [e|[]]]; [done|]. simpl.
  destruct (service_search env _ _ _ x2) as [x3 [e|found]]; [done|]. simpl.
  intros [= ->]. destruct docs as [|d docs]; [done|].
  destruct (Api.search_responses env (d :: docs) []); done.
Qed.

(** *** The ranking of the provider search *)

Lemma float_lt_le a b : PrimFloat.ltb a b = true -> PrimFloat.leb a b = true.
Proof.
  rewrite FloatAxioms.ltb_spec, FloatAxioms.leb_spec. unfold SFltb, SFleb.
  destruct (SFcompare _ _) as [[]|]; done.
Qed.

Lemma SFcompare_swap a b c :
  SFcompare a b = Some c -> SFcompare b a = Some (CompOpp c).
Proof.
  destruct a as [[]|[]| |[] m1 e1], b as [[]|[]| |[] m2 e2]; simpl;
    try (intros [= <-]; reflexivity); try discriminate.
  all: intros [= <-]; f_equal; rewrite (Z.compare_antisym e1 e2).
  all: pose proof (Pos.compare_cont_antisym m1 m2 Eq) as Hm; simpl in Hm.
  all: destruct (e1 ?= e2)%Z; simpl; try reflexivity.
  all: rewrite <- Hm.
  all: by destruct (Pos.compare_cont Eq m1 m2).
Qed.

Lemma SFcompare_above_zero a c :
  SFcompare (Prim2SF 0%float) a = Some c -> forall b d,
  SFcompare (Prim2SF 0%float) b = Some d -> is_Some (SFcompare a b).
Proof.
  change (Prim2SF 0%float) with (S754_zero false).
  intros Ha b d Hb. destruct a as [[]|[]| |[] m1 e1], b as [[]|[]| |[] m2 e2];
    simpl in *; try discriminate; eauto.
Qed.

(** Of two scores above the floor, one that is not less is at least as
    large. *)
Lemma float_not_lt_ge a b :
  PrimFloat.ltb 0%float a = true -> PrimFloat.ltb 0%float b = true ->
  PrimFloat.ltb a b = false -> PrimFloat.leb b a = true.
Proof.
  rewrite !FloatAxioms.ltb_spec, FloatAxioms.leb_spec. unfold SFltb, SFleb.
  destruct (SFcompare (Prim2SF 0%float) (Prim2SF a)) as [ca|] eqn:Ha; [|done].
  destruct (SFcompare (Prim2SF 0%float) (Prim2SF b)) as [cb|] eqn:Hb; [|by destruct ca].
  intros _ _.
  destruct (SFcompare_above_zero _ _ Ha _ _ Hb) as [c Hc].
  rewrite Hc, (SFcompare_swap _ _ _ Hc). by destruct c.
Qed.

Lemma rank_insert_above_floor x ranked :
  above_floor x -> Forall above_floor ranked -> Forall above_floor (Spec.rank_insert x ranked).
Proof.
  intros Hx. induction 1 as [|y rest Hy Hrest IH]; simpl; [by apply Forall_singleton|].
  destruct (PrimFloat.ltb y.2 x.2).
  - apply Forall_cons; split; [done|]. by apply Forall_cons.
  - by apply Forall_cons.
Qed.

Lemma rank_insert_head y x ranked :
  HdRel ranked_before y ranked -> ranked_before y x ->
  HdRel ranked_before y (Spec.rank_insert x ranked).
Proof.
  intros Hhd Hyx. destruct ranked as [|z rest]; simpl; [by constructor|].
  destruct (PrimFloat.ltb z.2 x.2); constructor; [done|].
  by inversion Hhd.
Qed.

Lemma rank_insert_sorted x ranked :
  above_floor x -> Forall above_floor ranked ->
  Sorted ranked_before ranked -> Sorted ranked_before (Spec.rank_insert x ranked).
Proof.
  intros Hx Hall Hs. induction Hs as [|y rest Hrest IH Hhd]; simpl.
  - by repeat constructor.
  - inversion Hall as [|? ? Hy Hall']; subst.
    destruct (PrimFloat.ltb y.2 x.2) eqn:Hlt.
    + constructor; [by constructor|]. constructor. by apply float_lt_le.
    + constructor; [by apply IH|].
      apply rank_insert_head; [done|]. by apply float_not_lt_ge.
Qed.

Lemma rank_sorted found :
  Forall above_floor found -> Sorted ranked_before (Spec.rank found).
Proof.
  unfold Spec.rank. intros Hfound.
  assert (forall ranked, Forall above_floor ranked -> Sorted ranked_before ranked ->
          Sorted ranked_before
            (fold_left (fun ranked x => Spec.rank_insert x ranked) found ranked)) as H.
  { induction Hfound as [|x found Hx _ IH]; intros ranked Hall Hs; simpl; [done|].
    apply IH; [by apply rank_insert_above_floor | by apply rank_insert_sorted]. }
  apply H; constructor.
Qed.

Lemma sorted_take n (ranked : list (Document.t * float)) :
  Sorted ranked_before ranked -> Sorted ranked_before (take n ranked).
Proof.
  intros Hs. revert n. induction Hs as [|y rest Hrest IH Hhd]; intros [|n]; simpl;
    try by constructor.
  constructor; [apply IH|]. destruct Hhd as [|z rest' Hyz]; [by destruct n; constructor|].
  destruct n; by constructor.
Qed.

Lemma sorted_descending (ranked : list (Document.t * float)) :
  Sorted ranked_before ranked -> descending (snd <$> ranked) = true.
Proof.
  induction 1 as [|y rest Hrest IH Hhd]; [done|].
  destruct Hhd as [|z rest' Hyz]; [done|].
  rewrite !fmap_cons in *. simpl in *. by rewrite Hyz, IH.
Qed.

(** The provider search of §4.2 returns at most [top_k] results, in
    descending order of score. *)
Lemma gateway_search_ranked similarity passes top_k records :
  (length (Spec.gateway_search similarity passes top_k records) <= top_k)%nat /\
  descending (snd <$> Spec.gateway_search similarity passes top_k records) = true.
Proof.
  unfold Spec.gateway_search. split.
  - rewrite length_take. lia.
  - apply sorted_descending, sorted_take, rank_sorted.
    apply Forall_forall. intros [d sc] Hin.
    apply list_elem_of_fmap in Hin as (d' & [= -> ->] & Hd).
    apply list_elem_of_In, filter_In in Hd as [_ Hd].
    unfold Spec.relevant in Hd. by apply andb_true_iff in Hd as [_ Hd].
Qed.

(** On an empty store, and when no record is a candidate, the provider
    search of §4.2 returns the empty sequence. *)
Lemma gateway_search_nothing similarity passes top_k records :
  Forall (fun d => Spec.relevant similarity passes d = false) records ->
  Spec.gateway_search similarity passes top_k records = [].
Proof.
  intros Hnone. unfold Spec.gateway_search.
  assert (List.filter (Spec.relevant similarity passes) records = []) as ->.
  { induction Hnone as [|d rest Hd _ IH]; [done|]. simpl. by rewrite Hd. }
  by destruct top_k.
Qed.

(** C4, as the code has it: when the provider search finds nothing, on an
    empty store or when no record matches, the endpoint raises nothing and
    answers the message "No documents found.", not an empty list.  When it finds
    documents, ranked as §4.2 has it, the endpoint answers up to [top_k]
    results ordered by descending score, one per found document and in that
    order, each with the stored text and score and with the page and source
    as the response model reads the stored values; it does answer them
    whenever the response model accepts every page and source. *)
Theorem search_answers {W} (env : Env W) s b f w similarity passes top_k records :
  let docs := Spec.gateway_search similarity passes top_k records in
  provider_search env s b f w = Some docs ->
  (Forall (fun d => Spec.relevant similarity passes d = false) records ->
   (Api.search env s b f w).2 = inr (inl no_documents_found)) /\
  match docs with
  | [] => (Api.search env s b f w).2 = inr (inl no_documents_found)
  | _ :: _ =>
      (forall rs, Forall2 (carries env) docs rs ->
         (Api.search env s b f w).2 = inr (inr rs)) /\
      (forall out, (Api.search env s b f w).2 = inr out ->
         exists rs, out = inr rs /\ Forall2 (carries env) docs rs /\
                    (length rs <= top_k)%nat /\
                    descending (SearchResponse.score <$> rs) = true)
  end.
Proof.
  intros docs H. apply search_after_provider in H.
  destruct (gateway_search_ranked similarity passes top_k records) as [Hk Hdesc].
  split.
  { intros Hnone. rewrite H. subst docs.
    by rewrite (gateway_search_nothing _ _ _ _ Hnone). }
  fold docs in Hk, Hdesc. destruct docs as [|d docs]; [done|].
  split.
  - intros rs Hrs. rewrite H, (search_responses_complete _ _ _ Hrs). done.
  - intros out. rewrite H.
    destruct (Api.search_responses env (d :: docs) []) as [e|rs] eqn:Hrs; [done|].
    intros [= <-]. apply search_responses_sound in Hrs as (rs' & -> & Hc).
    exists rs'. rewrite (carries_scores _ _ _ Hc), <- (Forall2_length _ _ _ Hc). done.
Qed.

Lemma search_answers_witness :
  (Api.search (stub_env (Spec.gateway_search page_similarity (fun _ => true) 2 shelf))
     (sky_request (Some "sky color")) openai_backend no_filtering
     (fresh () (store_of []))).2 =
  inr (inr [SearchResponse.mk "The sea is deep" 4 "doc.pdf" 0.875%float;
            SearchResponse.mk "The sky is blue" 3 "doc.pdf" 0.75%float]).
Proof.
  apply (proj1 (proj2 (search_answers
                  (stub_env (Spec.gateway_search page_similarity (fun _ => true) 2 shelf))
                  (sky_request (Some "sky color")) openai_backend no_filtering
                  (fresh () (store_of [])) page_similarity (fun _ => true) 2%nat shelf
                  eq_refl))).
  repeat constructor; simpl; eauto.
Defined.

(** C4, as stated, fails: a search that finds nothing is not answered with
    an empty list of results but with a message object. *)
Lemma search_nothing_found_is_a_message :
  provider_search (stub_env []) (sky_request (Some "sky color")) openai_backend
    no_filtering (fresh () (store_of [])) = Some [] /\
  (Api.search (stub_env []) (sky_request (Some "sky color")) openai_backend
     no_filtering (fresh () (store_of []))).2 = inr (inl no_documents_found) /\
  (Api.search (stub_env []) (sky_request (Some "sky color")) openai_backend
     no_filtering (fresh () (store_of []))).2 ≠ inr (inr []).
Proof. repeat split. discriminate. Qed.

(** ** The explanation threshold *)

(** C7: a span that scores exactly the threshold is part of the explanation,
    a span that scores strictly below it is not. *)
Theorem explain_threshold_is_inclusive t spans s :
  In s spans ->
  (PrimFloat.eqb (Spec.attribution_score s) t = true ->
   In s (Spec.explained_spans t spans)) /\
  (PrimFloat.ltb (Spec.attribution_score s) t = true ->
   ~ In s (Spec.explained_spans t spans)).
Proof.
  intros Hin. unfold Spec.explained_spans. split.
  - intros Heq. apply filter_In. split; [done|].
    rewrite FloatAxioms.eqb_spec in Heq. rewrite FloatAxioms.ltb_spec.
    unfold SFeqb, SFltb in *.
    destruct (SFcompare _ _) as [[]|]; simpl; congruence.
  - intros Hlt [_ Hkeep]%filter_In. rewrite Hlt in Hkeep. discriminate.
Qed.

Lemma explain_threshold_is_inclusive_witness :
  In half (Spec.explained_spans 0.5%float [half; below_half]) /\
  ~ In below_half (Spec.explained_spans 0.5%float [half; below_half]).
Proof.
  split.
  - apply (proj1 (explain_threshold_is_inclusive 0.5%float [half; below_half] half
                    (or_introl eq_refl))).
    reflexivity.
  - apply (proj2 (explain_threshold_is_inclusive 0.5%float [half; below_half] below_half
                    (or_intror (or_introl eq_refl)))).
    reflexivity.
Defined.

(** ** The delete endpoint *)

Lemma check_condition_true c p :
  Qdrant.check_condition c p = true <->
  Qdrant.payload_at (Qdrant.key c) p = Some (Qdrant.JVal (Qdrant.match_value c)).
Proof.
  unfold Qdrant.check_condition.
  destruct (Qdrant.payload_at (Qdrant.key c) p) as [[v|members]|]; [|done..].
  rewrite bool_decide_eq_true. split; [by intros -> | by intros [= ->]].
Qed.

(** The filter of [delete] is the conjunction of its two conditions. *)
Lemma delete_filter_matches page source p :
  Qdrant.check_filter (Api.delete_filter page source) p = true <->
  metadata_matches page source p.
Proof.
  unfold Qdrant.check_filter, Api.delete_filter, metadata_matches. simpl.
  rewrite andb_true_r, andb_true_iff, !check_condition_true. done.
Qed.

Lemma delete_filter_keeps page source p :
  Qdrant.check_filter (Api.delete_filter page source) p = false <->
  ~ metadata_matches page source p.
Proof.
  rewrite <- delete_filter_matches.
  destruct (Qdrant.check_filter _ p); split; (done || congruence).
Qed.

(** The run of [delete] once the connection is there and the collection
    exists. *)
Lemma delete_run {W} (env : Env W) page source p w c points x :
  Api.delete_collection (default OPENAI p) = inr c ->
  load_vec_db_conn env (ext w) = (x, inr ()) ->
  Qdrant.collections (qdrant w) !! c = Some points ->
  Api.delete env page source p w =
    ({| ext := x;
        qdrant :=
          {| Qdrant.collections :=
               <[c := filter (fun pt => Qdrant.check_filter (Api.delete_filter page source) pt
                                        = false) points]>
                 (Qdrant.collections (qdrant w));
             Qdrant.operation_ids := Qdrant.operation_ids (qdrant w);
             Qdrant.operations := S (Qdrant.operations (qdrant w)) |};
        trace := (trace w ++ [EvLoadVecDbConn]) ++
                 [EvQdrantDelete c (Api.delete_filter page source)] |},
     inr {| Qdrant.operation_id :=
              Qdrant.operation_ids (qdrant w) (Qdrant.operations (qdrant w));
            Qdrant.status := Qdrant.COMPLETED |}).
Proof.
  intros Hc Hl Hp. unfold Api.delete. rewrite Hc.
  unfold_monad. simpl. rewrite Hl. simpl.
  unfold qdrant_delete, Qdrant.delete. simpl. rewrite Hp. done.
Qed.

Lemma filter_keeps_all {A} (P : A -> Prop) `{!forall x, Decision (P x)} (l : list A) :
  Forall P l -> filter P l = l.
Proof.
  induction 1 as [|a l Ha _ IH]; [done|].
  by rewrite filter_cons, decide_True, IH.
Qed.

(** C5, as the code has it: on the collection of the selected provider,
    [delete] removes the records whose metadata matches the page and the
    source, both, and keeps every other record, in order; the other
    collections stay as they are.  It answers with the update result of the
    store: the id of the operation, completed.  When nothing matches nothing
    is removed, and the answer is the same. *)
Theorem delete_removes_matching {W} (env : Env W) page source p w c points x :
  Api.delete_collection (default OPENAI p) = inr c ->
  load_vec_db_conn env (ext w) = (x, inr ()) ->
  Qdrant.collections (qdrant w) !! c = Some points ->
  exists w' kept,
    Api.delete env page source p w =
      (w', inr {| Qdrant.operation_id :=
                    Qdrant.operation_ids (qdrant w) (Qdrant.operations (qdrant w));
                  Qdrant.status := Qdrant.COMPLETED |}) /\
    Qdrant.collections (qdrant w') !! c = Some kept /\
    kept `sublist_of` points /\
    (forall pt, pt ∈ kept <-> pt ∈ points /\ ~ metadata_matches page source pt) /\
    (Forall (fun pt => ~ metadata_matches page source pt) points -> kept = points) /\
    (forall c', c' ≠ c ->
       Qdrant.collections (qdrant w') !! c' = Qdrant.collections (qdrant w) !! c') /\
    deleted_from (trace w') = deleted_from (trace w) ++ [c].
Proof.
  intros Hc Hl Hp. rewrite (delete_run env page source p w c points x Hc Hl Hp).
  eexists _, _. split; [reflexivity|]. simpl.
  split; [apply lookup_insert_eq|].
  split; [apply sublist_filter|].
  split.
  { intros pt. rewrite list_elem_of_filter, delete_filter_keeps. tauto. }
  split.
  { intros Hall. apply filter_keeps_all.
    eapply Forall_impl; [exact Hall|]. intros pt. apply delete_filter_keeps. }
  split.
  { intros c' Hne. by rewrite lookup_insert_ne. }
  unfold deleted_from. rewrite !omap_app. simpl. by rewrite app_nil_r.
Qed.

Lemma delete_removes_matching_witness :
  exists w',
    Api.delete (stub_env []) 3 "doc.pdf" (Some OPENAI) (fresh () (store_of two_on_page_3)) =
      (w', inr {| Qdrant.operation_id := 0; Qdrant.status := Qdrant.COMPLETED |}) /\
    Qdrant.collections (qdrant w') !! "aleph-alpha" = Some [point 7 3 "doc.pdf"].
Proof.
  destruct (delete_removes_matching (stub_env []) 3 "doc.pdf" (Some OPENAI)
              (fresh () (store_of two_on_page_3)) "openai" two_on_page_3 ()
              eq_refl eq_refl eq_refl)
    as (w' & kept & Hrun & _ & _ & _ & _ & Hothers & _).
  exists w'. split; [exact Hrun|].
  rewrite (Hothers "aleph-alpha"); [reflexivity | discriminate].
Defined.

(** C5, as stated, fails on the answer: it is the same whether no record or
    two records were deleted, so it is not a count of deleted records. *)
Lemma delete_answer_is_not_a_count :
  (Api.delete (stub_env []) 3 "doc.pdf" None (fresh () (store_of []))).2 =
    inr {| Qdrant.operation_id := 0; Qdrant.status := Qdrant.COMPLETED |} /\
  (Api.delete (stub_env []) 3 "doc.pdf" None (fresh () (store_of two_on_page_3))).2 =
    inr {| Qdrant.operation_id := 0; Qdrant.status := Qdrant.COMPLETED |} /\
  Qdrant.collections
    (qdrant (Api.delete (stub_env []) 3 "doc.pdf" None (fresh () (store_of two_on_page_3))).1)
    !! "openai" = Some [point 2 4 "doc.pdf"; point 4 3 "other.pdf"].
Proof. repeat split. Qed.

(** C9: a delete request without a provider is the delete request for
    OpenAI.  Once the connection is loaded it sends one Qdrant delete, to the
    collection "openai", which loses exactly the records that match page and
    source; without a connection it sends none; and every other collection
    stays as it was.  The collection of a provider is fixed: "aleph-alpha",
    "openai", "gpt4all". *)
Theorem delete_defaults_to_openai {W} (env : Env W) page source w :
  Api.delete env page source None w = Api.delete env page source (Some OPENAI) w /\
  Api.delete_collection ALEPH_ALPHA = inr "aleph-alpha" /\
  Api.delete_collection OPENAI = inr "openai" /\
  Api.delete_collection GPT4ALL = inr "gpt4all" /\
  (forall x,
     load_vec_db_conn env (ext w) = (x, inr ()) ->
     deleted_from (trace (Api.delete env page source None w).1) =
       deleted_from (trace w) ++ ["openai"] /\
     forall points,
       Qdrant.collections (qdrant w) !! "openai" = Some points ->
       let kept :=
         filter (fun pt => Qdrant.check_filter (Api.delete_filter page source) pt = false)
           points in
       Qdrant.collections (qdrant (Api.delete env page source None w).1) !! "openai" =
         Some kept /\
       forall pt, pt ∈ kept <-> pt ∈ points /\ ~ metadata_matches page source pt) /\
  (forall x err,
     load_vec_db_conn env (ext w) = (x, inl err) ->
     deleted_from (trace (Api.delete env page source None w).1) = deleted_from (trace w)) /\
  (forall c, c ≠ "openai" ->
     Qdrant.collections (qdrant (Api.delete env page source None w).1) !! c =
     Qdrant.collections (qdrant w) !! c).
Proof.
  split; [reflexivity|]. do 3 (split; [reflexivity|]).
  unfold Api.delete, deleted_from. simpl. unfold_monad. simpl.
  destruct (load_vec_db_conn env (ext w)) as [x [e|[]]]; simpl.
  { split; [done|]. split; [|done].
    intros _ _ _. rewrite omap_app. simpl. by rewrite app_nil_r. }
  unfold qdrant_delete, Qdrant.delete. simpl.
  destruct (Qdrant.collections (qdrant w) !! "openai") as [points|]; simpl.
  - split; [|split; [done|]].
    + intros _ _. split.
      { rewrite !omap_app. simpl. by rewrite app_nil_r. }
      intros points' [= <-]. split; [apply lookup_insert_eq|].
      intros pt. rewrite list_elem_of_filter, delete_filter_keeps. tauto.
    + intros c Hne. by rewrite lookup_insert_ne.
  - split; [|split; done].
    intros _ _. split; [|done].
    rewrite !omap_app. simpl. by rewrite app_nil_r.
Qed.

Lemma delete_defaults_to_openai_witness :
  deleted_from
    (trace (Api.delete (stub_env []) 3 "doc.pdf" None
              (fresh () (store_of two_on_page_3))).1) = ["openai"] /\
  Qdrant.collections
    (qdrant (Api.delete (stub_env []) 3 "doc.pdf" None (fresh () (store_of two_on_page_3))).1)
    !! "openai" = Some [point 2 4 "doc.pdf"; point 4 3 "other.pdf"].
Proof.
  destruct (proj1 (proj2 (proj2 (proj2 (proj2
              (delete_defaults_to_openai (stub_env []) 3 "doc.pdf"
                 (fresh () (store_of two_on_page_3)))))))
              () eq_refl) as [Hsent Hkept].
  split; [exact Hsent|].
  exact (proj1 (Hkept two_on_page_3 eq_refl)).
Defined.

(** ** Provider selection *)

(** C6: a provider outside the three supported ones is refused with the
    unsupported-provider error, by [delete] before it calls anything, and by
    the strategy selector.  A supported one is routed to its collection, and
    the selector, given the credential a cloud provider needs, returns a
    handle of that provider with the whole operation set. *)
Theorem unsupported_provider_is_refused {W} (env : Env W) page source p w :
  match p with
  | OtherProvider raw =>
      Api.delete env page source (Some p) w =
        (w, inl (ValueError ("Unsupported LLM provider: " +:+ raw))) /\
      (forall explicit fallback c,
         Spec.select p explicit fallback c = inl Spec.UnsupportedProviderError)
  | _ =>
      (exists c, Api.delete_collection p = inr c /\
                 c ∈ ["aleph-alpha"; "openai"; "gpt4all"]) /\
      (forall explicit fallback c,
         (Spec.cloud_hosted p = true -> is_Some (Spec.resolve_credential explicit fallback)) ->
         exists h, Spec.select p explicit fallback c = inr h /\
                   Spec.binding h = p /\
                   Spec.operations h = Spec.operation_set)
  end.
Proof.
  destruct p as [| | |raw]; simpl.
  4: { split; reflexivity. }
  1, 2: split; [eexists; split; [reflexivity | set_solver]|];
    intros explicit fallback c [cred Hcred]; [reflexivity|];
    unfold Spec.select; simpl; rewrite Hcred; eauto.
  split; [eexists; split; [reflexivity | set_solver]|].
  intros explicit fallback c _. unfold Spec.select. simpl. eauto.
Qed.

Lemma unsupported_provider_is_refused_witness :
  exists h,
    Spec.select OPENAI (Some "sk-1") None "docs" = inr h /\
    Spec.binding h = OPENAI /\
    Spec.operations h = Spec.operation_set.
Proof.
  apply (proj2 (unsupported_provider_is_refused (stub_env []) 3 "doc.pdf" OPENAI
                  (fresh () (store_of [])))).
  intros _. simpl. eauto.
Defined.

(** ** The status of the embedding responses *)

Lemma save_documents_names {W} (env : Env W) tmp_dir files :
  forall names w w' out,
    Api.save_documents env tmp_dir files names w = (w', inr out) ->
    out = names ++ (UploadFile.filename <$> files).
Proof.
  induction files as [|file rest IH]; intros names w w' out; simpl.
  - intros [= _ <-]. by rewrite app_nil_r.
  - destruct tmp_dir as [dir|]; [|done].
    unfold_monad. simpl.
    destruct (path_exists env dir (ext w)) as [x [e|[]]]; simpl; [done| |done].
    destruct (UploadFile.filename file) as [name|]; simpl; [|done].
    destruct (write_file env _ _ x) as [x' [e|[]]]; simpl; [done|].
    intros H. apply IH in H. by rewrite H, <- app_assoc.
Qed.

Lemma save_text_files_names {W} (env : Env W) tmp_dir files :
  forall names w w' out,
    Api.save_text_files env tmp_dir files names w = (w', inr out) ->
    out = names ++ (UploadFile.filename <$> files).
Proof.
  induction files as [|file rest IH]; intros names w w' out; simpl.
  - intros [= _ <-]. by rewrite app_nil_r.
  - destruct (UploadFile.filename file) as [name|]; simpl; [|done].
    destruct tmp_dir as [dir|]; [|done].
    unfold_monad. simpl.
    destruct (path_exists env dir (ext w)) as [x [e|[]]]; simpl; [done| |done].
    destruct (write_file env _ _ x) as [x' [e|[]]]; simpl; [done|].
    intros H. apply IH in H. by rewrite H, <- app_assoc.
Qed.

(** Every status is found again by its value. *)
Lemma Status_of_value_value st : Status_of_value (Status_value st) = Some st.
Proof. by destruct st. Qed.

(** The constructor is only ever called with "success". *)
Lemma EmbeddingResponse_init_success names r :
  EmbeddingResponse_init "success" names = inr r ->
  EmbeddingResponse.status r = SUCCESS /\ Some <$> EmbeddingResponse.files r = names.
Proof.
  unfold EmbeddingResponse_init. simpl.
  destruct (mapM id names) as [files|] eqn:Hm; [|done].
  intros [= <-]. simpl. split; [done|].
  apply mapM_Some in Hm. induction Hm as [|? ? ? ? Hx _ IH]; [done|].
  rewrite fmap_cons, IH. simpl in Hx. by rewrite Hx.
Qed.

Lemma post_embedd_documents_response {W} (env : Env W) b files w w' r :
  Api.post_embedd_documents env b files w = (w', inr r) ->
  EmbeddingResponse.status r = SUCCESS /\
  Some <$> EmbeddingResponse.files r = UploadFile.filename <$> files.
Proof.
  unfold Api.post_embedd_documents, Api.embedd_documents_wrapper.
  step; [done|]. step; [done|]. step; [done|].
  match goal with
  | |- context [ Api.save_documents env ?d files [] ?w0 ] =>
      pose proof (save_documents_names env d files [] w0) as Hnames;
      destruct (Api.save_documents env d files [] w0) as [wl [e|names]]
  end; [done|].
  specialize (Hnames _ _ eq_refl). simpl in Hnames. subst names.
  step; [done|].
  destruct (EmbeddingResponse_init _ _) as [e|r'] eqn:Hr; [done|].
  intros [= _ <-]. by apply EmbeddingResponse_init_success.
Qed.

Lemma embedd_text_response {W} (env : Env W) e b w w' r :
  Api.embedd_text env e b w = (w', inr r) ->
  EmbeddingResponse.status r = SUCCESS /\
  EmbeddingResponse.files r = [EmbeddTextRequest.file_name e].
Proof.
  unfold Api.embedd_text.
  step; [done|]. step; [done|]. step; [done|].
  intros [= _ <-]. done.
Qed.

Lemma embedd_text_files_response {W} (env : Env W) e b w w' r :
  Api.embedd_text_files env e b w = (w', inr r) ->
  EmbeddingResponse.status r = SUCCESS /\
  Some <$> EmbeddingResponse.files r =
    UploadFile.filename <$> EmbeddTextFilesRequest.files e.
Proof.
  unfold Api.embedd_text_files.
  step; [done|].
  match goal with
  | |- context [ Api.save_text_files env ?d ?fs [] ?w0 ] =>
      pose proof (save_text_files_names env d fs [] w0) as Hnames;
      destruct (Api.save_text_files env d fs [] w0) as [wl [err|names]]
  end; [done|].
  specialize (Hnames _ _ eq_refl). simpl in Hnames. subst names.
  step; [done|]. step; [done|]. step; [done|].
  destruct (EmbeddingResponse_init _ _) as [err|r'] eqn:Hr; [done|].
  intros [= _ <-]. by apply EmbeddingResponse_init_success.
Qed.

(** A response of [f <$> m] is [f] of a response of [m]. *)
Lemma fmap_returns {W A B} (f : A -> B) (m : M W A) w w' y :
  (f <$> m) w = (w', inr y) -> exists a, m w = (w', inr a) /\ y = f a.
Proof.
  unfold fmap, M_fmap, bind, ret. destruct (m w) as [w1 [e|a]]; [done|].
  intros [= <- <-]. eauto.
Qed.

(** C10: whatever an endpoint returns, it is not a response with the status
    "failure"; and what an embedding endpoint returns is a response with the
    status "success" and the file names that came in.  Every other end of a
    request is an exception. *)
Theorem embedding_responses_succeed {W} (env : Env W) req w w' resp :
  handle env req w = (w', inr resp) ->
  response_status resp ≠ Some FAILURE /\
  (forall names, input_file_names req = Some names ->
     exists files,
       resp = REmbedding (EmbeddingResponse.mk SUCCESS files) /\
       Some <$> files = names).
Proof.
  destruct req; simpl.
  1: { intros [= _ <-]. done. }
  1, 6, 7, 8, 9: intros (a & _ & ->)%fmap_returns; done.
  4: { unfold mbind, M_bind, bind.
       destruct (Api.search env search llm_backend filtering w) as [w1 [e|[msg|rs]]];
         [done| |]; intros [= _ <-]; done. }
  - intros (r & [Hs Hf]%post_embedd_documents_response & ->)%fmap_returns.
    simpl. rewrite Hs. split; [done|]. intros names [= <-].
    exists (EmbeddingResponse.files r). split; [|done].
    destruct r. simpl in *. by rewrite Hs.
  - intros (r & [Hs Hf]%embedd_text_response & ->)%fmap_returns.
    simpl. rewrite Hs. split; [done|]. intros names [= <-].
    exists (EmbeddingResponse.files r). split; [|by rewrite Hf].
    destruct r. simpl in *. by rewrite Hs.
  - intros (r & [Hs Hf]%embedd_text_files_response & ->)%fmap_returns.
    simpl. rewrite Hs. split; [done|]. intros names [= <-].
    exists (EmbeddingResponse.files r). split; [|done].
    destruct r. simpl in *. by rewrite Hs.
Qed.

Lemma embedding_responses_succeed_witness :
  exists files,
    REmbedding (EmbeddingResponse.mk SUCCESS ["sky.txt"]) =
      REmbedding (EmbeddingResponse.mk SUCCESS files) /\
    Some <$> files = [Some "sky.txt"].
Proof.
  apply (proj2 (embedding_responses_succeed (stub_env [])
                  (PostEmbeddingsText note openai_backend)
                  (fresh () (store_of []))
                  (handle (stub_env []) (PostEmbeddingsText note openai_backend)
                     (fresh () (store_of []))).1
                  (REmbedding (EmbeddingResponse.mk SUCCESS ["sky.txt"]))
                  eq_refl)).
  reflexivity.
Defined.

(** * More of the endpoints *)

(** ** The upload loops *)

Lemma omap_fs_events {A} (f : Event -> option A) evs :
  Forall fs_event evs ->
  (forall ev, fs_event ev -> f ev = None) ->
  omap f evs = [].
Proof.
  intros Hall Hf. induction Hall as [|ev evs Hev _ IH]; [done|].
  change (omap f (ev :: evs))
    with (match f ev with Some y => y :: omap f evs | None => omap f evs end).
  by rewrite (Hf ev Hev).
Qed.

(** What the loop of [post_embedd_documents] does: file-system calls only;
    and when it gets through, every upload has been written under its own
    name. *)
Lemma save_documents_events {W} (env : Env W) tmp_dir files :
  forall names w,
  exists evs,
    trace (Api.save_documents env tmp_dir files names w).1 = trace w ++ evs /\
    Forall fs_event evs /\
    match (Api.save_documents env tmp_dir files names w).2 with
    | inr out =>
        out = names ++ (UploadFile.filename <$> files) /\
        writes evs = uploads_in tmp_dir files /\
        length (writes evs) = length files
    | inl _ => True
    end.
Proof.
  induction files as [|[fname content] rest IH]; intros names w.
  { exists []. simpl. rewrite !app_nil_r. repeat split; try done.
    by destruct tmp_dir. }
  simpl. destruct tmp_dir as [dir|].
  2: { exists []. simpl. by rewrite app_nil_r. }
  unfold_monad. simpl.
  destruct (path_exists env dir (ext w)) as [x [e|[]]]; simpl.
  1, 3: exists [EvPathExists dir]; repeat split; by repeat constructor.
  destruct fname as [name|]; simpl.
  2: { exists [EvPathExists dir]. repeat split; by repeat constructor. }
  destruct (write_file env _ _ x) as [x' [e|[]]]; simpl.
  { exists [EvPathExists dir; EvWriteFile (path_join dir name) content].
    rewrite <- app_assoc. repeat split; by repeat constructor. }
  match goal with
  | |- context [ Api.save_documents env (Some dir) rest ?n ?w0 ] =>
      destruct (IH n w0) as (evs & Htr & Hfs & Hout);
      destruct (Api.save_documents env (Some dir) rest n w0) as [w1 [e|out]]
  end; simpl in *.
  all: exists (EvPathExists dir :: EvWriteFile (path_join dir name) content :: evs).
  all: rewrite Htr, <- !app_assoc; simpl.
  all: split; [done|]; split; [by repeat constructor|]; [done || idtac].
  destruct Hout as (-> & Hw & Hlen).
  rewrite <- app_assoc. unfold writes in *. simpl in *.
  split; [done|]. split; [by rewrite Hw | by rewrite Hlen].
Qed.

(** The same for the loop of [embedd_text_files]. *)
Lemma save_text_files_events {W} (env : Env W) tmp_dir files :
  forall names w,
  exists evs,
    trace (Api.save_text_files env tmp_dir files names w).1 = trace w ++ evs /\
    Forall fs_event evs /\
    match (Api.save_text_files env tmp_dir files names w).2 with
    | inr out =>
        out = names ++ (UploadFile.filename <$> files) /\
        writes evs = uploads_in tmp_dir files /\
        length (writes evs) = length files
    | inl _ => True
    end.
Proof.
  induction files as [|[fname content] rest IH]; intros names w.
  { exists []. simpl. rewrite !app_nil_r. repeat split; try done.
    by destruct tmp_dir. }
  simpl. destruct fname as [name|]; simpl.
  2: { exists []. simpl. by rewrite app_nil_r. }
  destruct tmp_dir as [dir|].
  2: { exists []. simpl. by rewrite app_nil_r. }
  unfold_monad. simpl.
  destruct (path_exists env dir (ext w)) as [x [e|[]]]; simpl.
  1, 3: exists [EvPathExists dir]; repeat split; by repeat constructor.
  destruct (write_file env _ _ x) as [x' [e|[]]]; simpl.
  { exists [EvPathExists dir; EvWriteFile (path_join dir name) content].
    rewrite <- app_assoc. repeat split; by repeat constructor. }
  match goal with
  | |- context [ Api.save_text_files env (Some dir) rest ?n ?w0 ] =>
      destruct (IH n w0) as (evs & Htr & Hfs & Hout);
      destruct (Api.save_text_files env (Some dir) rest n w0) as [w1 [e|out]]
  end; simpl in *.
  all: exists (EvPathExists dir :: EvWriteFile (path_join dir name) content :: evs).
  all: rewrite Htr, <- !app_assoc; simpl.
  all: split; [done|]; split; [by repeat constructor|]; [done || idtac].
  destruct Hout as (-> & Hw & Hlen).
  rewrite <- app_assoc. unfold writes in *. simpl in *.
  split; [done|]. split; [by rewrite Hw | by rewrite Hlen].
Qed.

Arguments writes : simpl never.
Arguments embed_calls : simpl never.
Arguments credential_calls : simpl never.
Arguments service_contexts : simpl never.
Arguments summaries : simpl never.
Arguments rag_calls : simpl never.
Arguments strategies_built : simpl never.

(** Readings distribute over the trace. *)
Lemma omap_snoc_cons {A B} (f : A -> option B) a l :
  omap f (a :: l) = omap f [a] ++ omap f l.
Proof. apply (omap_app f [a] l). Qed.

Lemma writes_app tr1 tr2 : writes (tr1 ++ tr2) = writes tr1 ++ writes tr2.
Proof. apply omap_app. Qed.

Lemma writes_cons ev tr : writes (ev :: tr) = writes [ev] ++ writes tr.
Proof. apply omap_snoc_cons. Qed.

Lemma embed_calls_app tr1 tr2 : embed_calls (tr1 ++ tr2) = embed_calls tr1 ++ embed_calls tr2.
Proof. apply omap_app. Qed.

Lemma embed_calls_cons ev tr : embed_calls (ev :: tr) = embed_calls [ev] ++ embed_calls tr.
Proof. apply omap_snoc_cons. Qed.

Lemma credential_calls_app tr1 tr2 : credential_calls (tr1 ++ tr2) = credential_calls tr1 ++ credential_calls tr2.
Proof. apply omap_app. Qed.

Lemma credential_calls_cons ev tr : credential_calls (ev :: tr) = credential_calls [ev] ++ credential_calls tr.
Proof. apply omap_snoc_cons. Qed.

Lemma service_contexts_app tr1 tr2 : service_contexts (tr1 ++ tr2) = service_contexts tr1 ++ service_contexts tr2.
Proof. apply omap_app. Qed.

Lemma service_contexts_cons ev tr : service_contexts (ev :: tr) = service_contexts [ev] ++ service_contexts tr.
Proof. apply omap_snoc_cons. Qed.

Lemma summaries_app tr1 tr2 : summaries (tr1 ++ tr2) = summaries tr1 ++ summaries tr2.
Proof. apply omap_app. Qed.

Lemma summaries_cons ev tr : summaries (ev :: tr) = summaries [ev] ++ summaries tr.
Proof. apply omap_snoc_cons. Qed.

Lemma rag_calls_app tr1 tr2 : rag_calls (tr1 ++ tr2) = rag_calls tr1 ++ rag_calls tr2.
Proof. apply omap_app. Qed.

Lemma rag_calls_cons ev tr : rag_calls (ev :: tr) = rag_calls [ev] ++ rag_calls tr.
Proof. apply omap_snoc_cons. Qed.

Lemma strategies_made_app tr1 tr2 : strategies_built (tr1 ++ tr2) = strategies_built tr1 ++ strategies_built tr2.
Proof. apply omap_app. Qed.

Lemma strategies_made_cons ev tr : strategies_built (ev :: tr) = strategies_built [ev] ++ strategies_built tr.
Proof. apply omap_snoc_cons. Qed.

(** Split every reading in the goal into readings of single events and of
    unknown stretches, and evaluate the former. *)
Ltac split_reading f app_lemma cons_lemma :=
  repeat match goal with
  | |- context [ f (?l1 ++ ?l2) ] => rewrite (app_lemma l1 l2)
  | |- context [ f (?a :: ?l) ] =>
      lazymatch l with
      | [] => fail
      | _ => rewrite (cons_lemma a l)
      end
  end.

Ltac eval_reading f :=
  repeat match goal with
  | |- context [ f [?ev] ] =>
      let v := eval cbv [f omap list_omap] in (f [ev]) in
      change (f [ev]) with v
  | |- context [ f [] ] => change (f []) with (@nil _)
  end.

Ltac read_trace :=
  split_reading writes writes_app writes_cons;
  split_reading embed_calls embed_calls_app embed_calls_cons;
  split_reading credential_calls credential_calls_app credential_calls_cons;
  split_reading service_contexts service_contexts_app service_contexts_cons;
  split_reading summaries summaries_app summaries_cons;
  split_reading rag_calls rag_calls_app rag_calls_cons;
  split_reading strategies_built strategies_made_app strategies_made_cons;
  eval_reading writes; eval_reading embed_calls; eval_reading credential_calls;
  eval_reading service_contexts; eval_reading summaries; eval_reading rag_calls;
  eval_reading strategies_built;
  cbn [app].

Lemma fs_events_embed_nothing evs : Forall fs_event evs -> embed_calls evs = [].
Proof. intros H. apply omap_fs_events; [done|]. by intros []. Qed.

Lemma fs_events_validate_nothing evs : Forall fs_event evs -> credential_calls evs = [].
Proof. intros H. apply omap_fs_events; [done|]. by intros []. Qed.

Lemma fs_events_build_nothing evs : Forall fs_event evs -> strategies_built evs = [].
Proof. intros H. apply omap_fs_events; [done|]. by intros []. Qed.

Lemma fs_events_serve_nothing evs : Forall fs_event evs -> service_contexts evs = [].
Proof. intros H. apply omap_fs_events; [done|]. by intros []. Qed.

(** ** Document upload *)

Lemma omap_length_le {A B} (f : A -> option B) (l : list A) :
  (length (omap f l) <= length l)%nat.
Proof.
  induction l as [|a l IH]; [done|].
  rewrite (omap_snoc_cons f a l), length_app. simpl.
  destruct (f a); simpl; lia.
Qed.

(** When no upload was skipped, every upload is saved as the write at its
    place. *)
Lemma uploads_saved tmp_dir files :
  length (uploads_in tmp_dir files) = length files ->
  Forall2 (saved_as tmp_dir) files (uploads_in tmp_dir files).
Proof.
  destruct tmp_dir as [dir|]; simpl.
  2: { destruct files; [constructor|discriminate]. }
  induction files as [|[fname content] rest IH]; [constructor|].
  rewrite (omap_snoc_cons (upload_target dir) _ rest), length_app.
  destruct fname as [name|]; simpl.
  - intros [= Hlen]. constructor; [|by apply IH].
    by exists dir, name.
  - intros Hlen. pose proof (omap_length_le (upload_target dir) rest). lia.
Qed.

(** An absolute name makes the folder irrelevant. *)
Lemma path_join_absolute dir name :
  Posix.root_of name ≠ EmptyString ->
  path_join dir name = Posix.str (Posix.parse name).
Proof.
  unfold path_join, Posix.joinpath. simpl. by destruct (Posix.root_of name).
Qed.

(** What a returning [post_embedd_documents] has done, in terms of the
    answers of [validate_token] and [create_tmp_folder]. *)
Lemma post_embedd_documents_returns {W} (env : Env W) b files x s token x1 tmp_dir x2 w' r :
  validate_token env (LLMBackend.token b) (ScopeBackend b)
    (ALEPH_ALPHA_API_KEY env) (OPENAI_API_KEY env) x = (x1, inr token) ->
  create_tmp_folder env x1 = (x2, inr tmp_dir) ->
  Api.post_embedd_documents env b files (fresh x s) = (w', inr r) ->
  Forall2 (saved_as tmp_dir) files (writes (trace w')) /\
  last (trace w') =
    Some (EvService {| strategy_type := ALEPH_ALPHA; strategy_token := Some token;
                       strategy_collection_name := LLMBackend.collection_name b |}
            (EmbedDocuments (EmbedDirectory tmp_dir "*.pdf"))) /\
  length (embed_calls (trace w')) = 1%nat.
Proof.
  intros Hv Ht.
  unfold Api.post_embedd_documents, Api.embedd_documents_wrapper.
  repeat (progress (unfold_monad; simpl)).
  rewrite Hv. simpl. rewrite Ht. simpl.
  step; [done|].
  match goal with
  | |- context [ Api.save_documents env ?d files [] ?w0 ] =>
      destruct (save_documents_events env d files [] w0) as (evs & Htr & Hfs & Hout);
      destruct (Api.save_documents env d files [] w0) as [wl [e|names]]
  end; [done|]. simpl in *. destruct Hout as (-> & Hw & Hlen).
  step; [done|].
  destruct (EmbeddingResponse_init _ _) as [e|r']; [done|].
  intros [= <- <-]. simpl. rewrite Htr.
  rewrite last_snoc. read_trace.
  rewrite (fs_events_embed_nothing _ Hfs), app_nil_r.
  split; [|done]. rewrite Hw. apply uploads_saved. by rewrite <- Hw.
Qed.

(** X1: when [post_embedd_documents] answers, every upload has been written,
    in order, at the path [tmp_dir / filename] of the folder that
    [create_tmp_folder] returned, and the last call made is the one
    [embed_documents] on that folder for "*.pdf", on the Aleph Alpha service
    object built with the token that [validate_token] returned. *)
Theorem post_embedd_documents_saves_then_embeds {W} (env : Env W) b files x s
    token x1 tmp_dir x2 w' r :
  validate_token env (LLMBackend.token b) (ScopeBackend b)
    (ALEPH_ALPHA_API_KEY env) (OPENAI_API_KEY env) x = (x1, inr token) ->
  create_tmp_folder env x1 = (x2, inr tmp_dir) ->
  Api.post_embedd_documents env b files (fresh x s) = (w', inr r) ->
  Forall2 (saved_as tmp_dir) files (writes (trace w')) /\
  last (trace w') =
    Some (EvService {| strategy_type := ALEPH_ALPHA; strategy_token := Some token;
                       strategy_collection_name := LLMBackend.collection_name b |}
            (EmbedDocuments (EmbedDirectory tmp_dir "*.pdf"))) /\
  length (embed_calls (trace w')) = 1%nat.
Proof.
  intros Hv Ht Hrun.
  exact (post_embedd_documents_returns env b files x s token x1 tmp_dir x2 w' r Hv Ht Hrun).
Qed.

Lemma post_embedd_documents_saves_then_embeds_witness :
  Forall2 (saved_as (Some "tmp")) one_pdf
    (writes (trace (Api.post_embedd_documents (stub_env []) openai_backend one_pdf
                      (fresh () (store_of []))).1)) /\
  last (trace (Api.post_embedd_documents (stub_env []) openai_backend one_pdf
                 (fresh () (store_of []))).1) =
    Some (EvService {| strategy_type := ALEPH_ALPHA; strategy_token := Some "sk-1";
                       strategy_collection_name := Some "docs" |}
            (EmbedDocuments (EmbedDirectory (Some "tmp") "*.pdf"))) /\
  length (embed_calls (trace (Api.post_embedd_documents (stub_env []) openai_backend
                                one_pdf (fresh () (store_of []))).1)) = 1%nat.
Proof.
  apply (post_embedd_documents_saves_then_embeds (stub_env []) openai_backend one_pdf ()
           (store_of []) "sk-1" () (Some "tmp") () _
           (EmbeddingResponse.mk SUCCESS ["a.pdf"]) eq_refl eq_refl eq_refl).
Defined.

(** X2: when [post_embedd_documents] ends in one of its own [ValueError]s,
    there was at least one upload and nothing has been handed to
    [embed_documents]. *)
Theorem post_embedd_documents_refusal_embeds_nothing {W} (env : Env W) b files x s msg :
  (Api.post_embedd_documents env b files (fresh x s)).2 = inl (ValueError msg) ->
  files ≠ [] /\
  embed_calls (trace (Api.post_embedd_documents env b files (fresh x s)).1) = [].
Proof.
  unfold Api.post_embedd_documents, Api.embedd_documents_wrapper.
  step; [done|]. step; [done|]. step; [done|].
  match goal with
  | |- context [ Api.save_documents env ?d files [] ?w0 ] =>
      destruct (save_documents_events env d files [] w0) as (evs & Htr & Hfs & Hout);
      destruct (Api.save_documents env d files [] w0) as [wl [e|names]] eqn:Hrun
  end; simpl in *.
  - intros [= ->]. split.
    + intros ->. simpl in Hrun. discriminate.
    + rewrite Htr. read_trace. by rewrite (fs_events_embed_nothing _ Hfs).
  - step; [done|]. destruct (EmbeddingResponse_init _ _) as [e|r'] eqn:Hr; [|done].
    simpl. intros [= ->]. unfold EmbeddingResponse_init in Hr. simpl in Hr.
    destruct (mapM id names); done.
Qed.

Lemma post_embedd_documents_refusal_embeds_nothing_witness :
  [nameless] ≠ [] /\
  embed_calls (trace (Api.post_embedd_documents (stub_env []) openai_backend [nameless]
                        (fresh () (store_of []))).1) = [].
Proof.
  apply (post_embedd_documents_refusal_embeds_nothing (stub_env []) openai_backend
           [nameless] () (store_of []) "Please provide a file to save.").
  reflexivity.
Defined.

(** X3: with no upload at all the folder is never looked at: whatever
    [create_tmp_folder] answered, no folder included, the endpoint calls
    [embed_documents] on it and answers success with no file names. *)
Theorem post_embedd_documents_without_files {W} (env : Env W) b w token tmp_dir x1 x2 x3 x4 :
  let service :=
    {| strategy_type := ALEPH_ALPHA; strategy_token := Some token;
       strategy_collection_name := LLMBackend.collection_name b |} in
  validate_token env (LLMBackend.token b) (ScopeBackend b)
    (ALEPH_ALPHA_API_KEY env) (OPENAI_API_KEY env) (ext w) = (x1, inr token) ->
  create_tmp_folder env x1 = (x2, inr tmp_dir) ->
  get_strategy env ALEPH_ALPHA (Some token) (LLMBackend.collection_name b) x2 = (x3, inr ()) ->
  service_embed_documents env service (EmbedDirectory tmp_dir "*.pdf") x3 = (x4, inr ()) ->
  Api.post_embedd_documents env b [] w =
    ({| ext := x4; qdrant := qdrant w;
        trace := trace w ++
          [ EvValidateToken (LLMBackend.token b) (ScopeBackend b)
              (ALEPH_ALPHA_API_KEY env) (OPENAI_API_KEY env);
            EvCreateTmpFolder;
            EvGetStrategy ALEPH_ALPHA (Some token) (LLMBackend.collection_name b);
            EvService service (EmbedDocuments (EmbedDirectory tmp_dir "*.pdf")) ] |},
     inr (EmbeddingResponse.mk SUCCESS [])).
Proof.
  intros service Hv Ht Hg He.
  unfold Api.post_embedd_documents, Api.embedd_documents_wrapper.
  repeat (progress (unfold_monad; simpl)).
  rewrite Hv. simpl. rewrite Ht. simpl. rewrite Hg. simpl.
  fold service. rewrite He. simpl. by rewrite <- !app_assoc.
Qed.

Lemma post_embedd_documents_without_files_witness :
  (Api.post_embedd_documents (stub_env_with None (inr "summary") (inr ())) openai_backend []
     (fresh () (store_of []))).2 = inr (EmbeddingResponse.mk SUCCESS []).
Proof.
  rewrite (post_embedd_documents_without_files
             (stub_env_with None (inr "summary") (inr ())) openai_backend
             (fresh () (store_of [])) "sk-1" None () () () ()
             eq_refl eq_refl eq_refl eq_refl).
  reflexivity.
Defined.

(** X4: nothing reaches the file system before the token of
    [post_embedd_documents] is validated and its strategy built: a run that
    wrote a file has made exactly one credential call, for the request's
    backend object, and built exactly one strategy. *)
Theorem post_embedd_documents_writes_after_validation {W} (env : Env W) b files x s :
  writes (trace (Api.post_embedd_documents env b files (fresh x s)).1) ≠ [] ->
  credential_calls (trace (Api.post_embedd_documents env b files (fresh x s)).1) =
    [ScopeBackend b] /\
  length (strategies_built
            (trace (Api.post_embedd_documents env b files (fresh x s)).1)) = 1%nat.
Proof.
  unfold Api.post_embedd_documents, Api.embedd_documents_wrapper.
  step; [done|]. step; [done|]. step; [done|].
  match goal with
  | |- context [ Api.save_documents env ?d files [] ?w0 ] =>
      destruct (save_documents_events env d files [] w0) as (evs & Htr & Hfs & _);
      destruct (Api.save_documents env d files [] w0) as [wl [e|names]]
  end; simpl in *.
  2: step; try (destruct (EmbeddingResponse_init _ _); simpl).
  all: intros _; rewrite Htr; read_trace.
  all: by rewrite ?(fs_events_validate_nothing _ Hfs), ?(fs_events_build_nothing _ Hfs).
Qed.

Lemma post_embedd_documents_writes_after_validation_witness :
  credential_calls (trace (Api.post_embedd_documents (stub_env []) openai_backend one_pdf
                             (fresh () (store_of []))).1) = [ScopeBackend openai_backend] /\
  length (strategies_built
            (trace (Api.post_embedd_documents (stub_env []) openai_backend one_pdf
                      (fresh () (store_of []))).1)) = 1%nat.
Proof.
  apply (post_embedd_documents_writes_after_validation (stub_env []) openai_backend one_pdf
           () (store_of [])).
  discriminate.
Defined.

(** ** Text files upload *)

(** X5: [embedd_text_files] validates the token only after the uploads are on
    disk: in a run that made a credential call, every upload has been written,
    in order, at the path [tmp_dir / filename] of the folder that
    [create_tmp_folder] returned. *)
Theorem embedd_text_files_validates_after_saving {W} (env : Env W) e b x s x1 tmp_dir :
  create_tmp_folder env x = (x1, inr tmp_dir) ->
  credential_calls (trace (Api.embedd_text_files env e b (fresh x s)).1) ≠ [] ->
  Forall2 (saved_as tmp_dir) (EmbeddTextFilesRequest.files e)
    (writes (trace (Api.embedd_text_files env e b (fresh x s)).1)).
Proof.
  intros Ht. unfold Api.embedd_text_files.
  repeat (progress (unfold_monad; simpl)). rewrite Ht. simpl.
  match goal with
  | |- context [ Api.save_text_files env ?d ?fs [] ?w0 ] =>
      destruct (save_text_files_events env d fs [] w0) as (evs & Htr & Hfs & Hout);
      destruct (Api.save_text_files env d fs [] w0) as [wl [err|names]]
  end; simpl in *.
  { intros H. exfalso. apply H. rewrite Htr. read_trace.
    by rewrite (fs_events_validate_nothing _ Hfs). }
  destruct Hout as (_ & Hw & Hlen).
  step; [|step; [|step; try (destruct (EmbeddingResponse_init _ _); simpl)]].
  all: intros _; rewrite Htr; read_trace; rewrite ?app_nil_r.
  all: rewrite Hw; apply uploads_saved; by rewrite <- Hw.
Qed.

Lemma embedd_text_files_validates_after_saving_witness :
  Forall2 (saved_as (Some "tmp")) (EmbeddTextFilesRequest.files two_texts)
    (writes (trace (Api.embedd_text_files (stub_env []) two_texts openai_backend
                      (fresh () (store_of []))).1)).
Proof.
  apply (embedd_text_files_validates_after_saving (stub_env []) two_texts openai_backend
           () (store_of []) () (Some "tmp") eq_refl).
  discriminate.
Defined.

(** X6: an upload without a name at the head of the list stops
    [embedd_text_files] right after the temporary folder was created,
    whatever that folder is: the error is the one about the name, and no
    file, credential or strategy has been touched. *)
Theorem embedd_text_files_nameless_first {W} (env : Env W) e b w file rest tmp_dir x :
  EmbeddTextFilesRequest.files e = file :: rest ->
  UploadFile.filename file = None ->
  create_tmp_folder env (ext w) = (x, inr tmp_dir) ->
  Api.embedd_text_files env e b w =
    ({| ext := x; qdrant := qdrant w; trace := trace w ++ [EvCreateTmpFolder] |},
     inl (ValueError "File does not have a valid name.")).
Proof.
  intros Hfiles Hname Htmp. unfold Api.embedd_text_files.
  repeat (progress (unfold_monad; simpl)).
  rewrite Htmp, Hfiles. simpl. by rewrite Hname.
Qed.

Lemma embedd_text_files_nameless_first_witness :
  (Api.embedd_text_files (stub_env_with None (inr "summary") (inr ()))
     (EmbeddTextFilesRequest.mk [nameless] ".") openai_backend
     (fresh () (store_of []))).2 = inl (ValueError "File does not have a valid name.").
Proof.
  rewrite (embedd_text_files_nameless_first (stub_env_with None (inr "summary") (inr ()))
             (EmbeddTextFilesRequest.mk [nameless] ".") openai_backend
             (fresh () (store_of [])) nameless [] None () eq_refl eq_refl eq_refl).
  reflexivity.
Defined.

(** X7: when [embedd_text_files] answers, the last call made is the one
    [embed_documents] on the folder that [create_tmp_folder] returned, with
    the request's separator, and the token it is given is the one that
    [validate_token] returned after the uploads were saved, the same the
    strategy of the requested provider was built with. *)
Theorem embedd_text_files_embeds_folder {W} (env : Env W) e b x s x1 tmp_dir x2 token w' r :
  create_tmp_folder env x = (x1, inr tmp_dir) ->
  validate_token env (LLMBackend.token b) (ScopeProvider (LLMBackend.llm_provider b))
    (ALEPH_ALPHA_API_KEY env) (OPENAI_API_KEY env)
    (ext (Api.save_text_files env tmp_dir (EmbeddTextFilesRequest.files e) []
            {| ext := x1; qdrant := s; trace := [EvCreateTmpFolder] |}).1) =
    (x2, inr token) ->
  Api.embedd_text_files env e b (fresh x s) = (w', inr r) ->
  last (trace w') =
    Some (EvService {| strategy_type := LLMBackend.llm_provider b;
                       strategy_token := Some token;
                       strategy_collection_name := LLMBackend.collection_name b |}
            (EmbedDocuments
               (EmbedFolder tmp_dir token (EmbeddTextFilesRequest.seperator e)))) /\
  length (embed_calls (trace w')) = 1%nat.
Proof.
  intros Ht Hv. unfold Api.embedd_text_files.
  repeat (progress (unfold_monad; simpl)). rewrite Ht. simpl.
  match goal with
  | |- context [ Api.save_text_files env ?d ?fs [] ?w0 ] =>
      destruct (save_text_files_events env d fs [] w0) as (evs & Htr & Hfs & Hout);
      destruct (Api.save_text_files env d fs [] w0) as [wl [err|names]]
  end; [done|]. simpl in *. rewrite Hv. simpl.
  step; [done|]. step; [done|].
  destruct (EmbeddingResponse_init _ _) as [err|r']; [done|].
  intros [= <- <-]. simpl. rewrite Htr.
  rewrite last_snoc. read_trace.
  rewrite (fs_events_embed_nothing _ Hfs). done.
Qed.

Lemma embedd_text_files_embeds_folder_witness :
  last (trace (Api.embedd_text_files (stub_env []) two_texts openai_backend
                 (fresh () (store_of []))).1) =
    Some (EvService {| strategy_type := OPENAI; strategy_token := Some "sk-1";
                       strategy_collection_name := Some "docs" |}
            (EmbedDocuments (EmbedFolder (Some "tmp") "sk-1" "."))) /\
  length (embed_calls (trace (Api.embedd_text_files (stub_env []) two_texts
                                openai_backend (fresh () (store_of []))).1)) = 1%nat.
Proof.
  apply (embedd_text_files_embeds_folder (stub_env []) two_texts openai_backend ()
           (store_of []) () (Some "tmp") () "sk-1" _
           (EmbeddingResponse.mk SUCCESS ["a.txt"; "b.txt"]) eq_refl eq_refl eq_refl).
Defined.

(** ** Text upload *)

(** X8: when [embedd_text] answers, it has made three calls: the credential
    call, the construction of the requested provider's strategy with the
    token that the credential call returned, and one [embed_documents] with
    the request's text, file name and separator; the response names that one
    file. *)
Theorem embedd_text_embeds_request {W} (env : Env W) e b x s token x1 w' r :
  validate_token env (LLMBackend.token b) (ScopeBackend b)
    (ALEPH_ALPHA_API_KEY env) (OPENAI_API_KEY env) x = (x1, inr token) ->
  Api.embedd_text env e b (fresh x s) = (w', inr r) ->
  r = EmbeddingResponse.mk SUCCESS [EmbeddTextRequest.file_name e] /\
  trace w' =
    [ EvValidateToken (LLMBackend.token b) (ScopeBackend b)
        (ALEPH_ALPHA_API_KEY env) (OPENAI_API_KEY env);
      EvGetStrategy (LLMBackend.llm_provider b) (Some token)
        (LLMBackend.collection_name b);
      EvService {| strategy_type := LLMBackend.llm_provider b;
                   strategy_token := Some token;
                   strategy_collection_name := LLMBackend.collection_name b |}
        (EmbedDocuments
           (EmbedText (EmbeddTextRequest.text e) (EmbeddTextRequest.file_name e)
              (EmbeddTextRequest.seperator e))) ].
Proof.
  intros Hv. unfold Api.embedd_text.
  repeat (progress (unfold_monad; simpl)). rewrite Hv. simpl.
  step; [done|]. step; [done|].
  intros [= <- <-]. done.
Qed.

Lemma embedd_text_embeds_request_witness :
  EmbeddingResponse.mk SUCCESS ["sky.txt"] =
    EmbeddingResponse.mk SUCCESS [EmbeddTextRequest.file_name note] /\
  trace (Api.embedd_text (stub_env []) note openai_backend (fresh () (store_of []))).1 =
    [ EvValidateToken (Some "sk-1") (ScopeBackend openai_backend) (Some "aa-key") None;
      EvGetStrategy OPENAI (Some "sk-1") (Some "docs");
      EvService {| strategy_type := OPENAI; strategy_token := Some "sk-1";
                   strategy_collection_name := Some "docs" |}
        (EmbedDocuments (EmbedText "The sky is blue." "sky.txt" ".")) ].
Proof.
  apply (embedd_text_embeds_request (stub_env []) note openai_backend () (store_of [])
           "sk-1" () _ (EmbeddingResponse.mk SUCCESS ["sky.txt"]) eq_refl eq_refl).
Defined.

(** ** Search results *)

(** The response loop passes over documents that carry page and source. *)
Lemma search_responses_app {W} (env : Env W) good rs rest :
  Forall2 (carries env) good rs ->
  forall acc,
    Api.search_responses env (good ++ rest) acc = Api.search_responses env rest (acc ++ rs).
Proof.
  induction 1 as [|d r good rs (Ht & (page & Hp & Hpi) & (source & Hs & Hsi) & Hsc) _ IH];
    intros acc; simpl.
  - by rewrite app_nil_r.
  - rewrite Hp, Hs. unfold SearchResponse_init. rewrite Hpi, Hsi, IH, <- Ht, <- Hsc.
    destruct r. simpl. by rewrite <- app_assoc.
Qed.

(** X9: a found document whose metadata has no "page" makes the whole search
    raise [KeyError] for that key, however many good documents precede or
    follow it; one with a page but no "source" raises [KeyError] for the
    source. *)
Theorem search_missing_metadata_key {W} (env : Env W) s b f w good rs d rest :
  provider_search env s b f w = Some (good ++ d :: rest) ->
  Forall2 (carries env) good rs ->
  (Document.metadata d.1 !! "page" = None ->
   (Api.search env s b f w).2 = inl (KeyError "page")) /\
  (is_Some (Document.metadata d.1 !! "page") ->
   Document.metadata d.1 !! "source" = None ->
   (Api.search env s b f w).2 = inl (KeyError "source")).
Proof.
  intros Hp Hgood. apply search_after_provider in Hp. rewrite Hp.
  rewrite (search_responses_app env good rs (d :: rest) Hgood []).
  assert (match good ++ d :: rest with
          | [] => False
          | _ :: _ => True
          end) as Hne by (by destruct good).
  destruct (good ++ d :: rest) as [|d0 others]; [done|]. clear Hne. simpl. split.
  - intros ->. done.
  - intros [page ->] ->. done.
Qed.

Lemma search_missing_metadata_key_witness :
  (Api.search (stub_env [sky_document; pageless_document; sky_document])
     (sky_request (Some "sky color")) openai_backend no_filtering
     (fresh () (store_of []))).2 = inl (KeyError "page").
Proof.
  apply (proj1 (search_missing_metadata_key
                  (stub_env [sky_document; pageless_document; sky_document])
                  (sky_request (Some "sky color")) openai_backend no_filtering
                  (fresh () (store_of []))
                  [sky_document] [SearchResponse.mk "The sky is blue" 3 "doc.pdf" 0.75%float]
                  pageless_document [sky_document] eq_refl
                  ltac:(repeat constructor; simpl; eauto))).
  reflexivity.
Defined.

(** X10: the list form of the search response is never empty: whoever gets a
    list of results gets at least one. *)
Theorem search_results_never_empty {W} (env : Env W) s b f w w' rs :
  Api.search env s b f w = (w', inr (inr rs)) -> rs ≠ [].
Proof.
  unfold Api.search.
  step; [done|]. step; [done|]. step; [done|].
  match goal with
  | |- context [ match ?found with [] => _ | _ :: _ => _ end ] =>
      destruct found as [|d ds]
  end; [done|].
  unfold_monad.
  destruct (Api.search_responses env (d :: ds) []) as [e|out] eqn:Hrun; [done|].
  intros [= _ <-].
  apply search_responses_sound in Hrun as (rs' & -> & Hc).
  apply Forall2_length in Hc. by destruct rs'.
Qed.

Lemma search_results_never_empty_witness :
  [SearchResponse.mk "The sky is blue" 3 "doc.pdf" 0.75%float] ≠ [].
Proof.
  apply (search_results_never_empty (stub_env [sky_document])
           (sky_request (Some "sky color")) openai_backend no_filtering
           (fresh () (store_of []))
           (Api.search (stub_env [sky_document]) (sky_request (Some "sky color"))
              openai_backend no_filtering (fresh () (store_of []))).1).
  reflexivity.
Defined.

(** ** One binding per request *)

(** X11: text embedding, text-file embedding, search and answer use one
    binding per request: every strategy they ask the factory for is the
    requested provider's, and every service call goes to a service object of
    that provider and of the requested collection. *)
Theorem request_uses_its_backend {W} (env : Env W) req b x s :
  request_backend req = Some b ->
  Forall (fun p => p = LLMBackend.llm_provider b)
    (strategies_built (trace (handle env req (fresh x s)).1)) /\
  Forall (fun c => strategy_type c = LLMBackend.llm_provider b /\
                   strategy_collection_name c = LLMBackend.collection_name b)
    (service_contexts (trace (handle env req (fresh x s)).1)).
Proof.
  destruct req; try done; intros [= ->]; simpl.
  - unfold Api.embedd_text. run.
    all: read_trace; split; repeat constructor.
  - unfold Api.embedd_text_files. step; [read_trace; split; repeat constructor|].
    match goal with
    | |- context [ Api.save_text_files env ?d ?fs [] ?w0 ] =>
        destruct (save_text_files_events env d fs [] w0) as (evs & Htr & Hfs & _);
        destruct (Api.save_text_files env d fs [] w0) as [wl [err|names]]
    end; simpl in *.
    2: step; [|step; [|step; try (destruct (EmbeddingResponse_init _ _); simpl)]].
    all: rewrite Htr; read_trace.
    all: rewrite ?(fs_events_build_nothing _ Hfs), ?(fs_events_serve_nothing _ Hfs).
    all: split; repeat constructor.
  - unfold Api.search. step; [read_trace; split; repeat constructor|].
    step; [read_trace; split; repeat constructor|].
    step; [read_trace; split; repeat constructor|].
    match goal with
    | |- context [ match ?found with [] => _ | _ :: _ => _ end ] =>
        destruct found as [|d ds]
    end; unfold_monad.
    2: destruct (Api.search_responses env (d :: ds) []).
    all: simpl; read_trace; split; repeat constructor.
  - unfold Api.question_answer.
    destruct (SearchRequest.query _); [|split; constructor].
    destruct (RAGRequest.history rag); run.
    all: read_trace; split; repeat constructor.
Qed.

Lemma request_uses_its_backend_witness :
  Forall (fun p => p = OPENAI)
    (strategies_built (trace (handle (stub_env []) (PostRag talk openai_backend no_filtering)
                                (fresh () (store_of []))).1)) /\
  Forall (fun c => strategy_type c = OPENAI /\ strategy_collection_name c = Some "docs")
    (service_contexts (trace (handle (stub_env []) (PostRag talk openai_backend no_filtering)
                                (fresh () (store_of []))).1)).
Proof.
  apply (request_uses_its_backend (stub_env []) (PostRag talk openai_backend no_filtering)
           openai_backend () (store_of []) eq_refl).
Defined.

(** ** Custom prompt and collection creation *)

(** X12: [custom_prompt_llm] never validates the token: it builds the
    strategy with the token as the request has it and with the collection of
    the search part, calls [generate] on the text, and answers what
    [generate] answered; anything else is an exception of a collaborator. *)
Theorem custom_prompt_llm_skips_validation {W} (env : Env W) request x s :
  let request_search := CustomPromptCompletion.search request in
  let backend := SearchRequest.llm_backend request_search in
  let built :=
    EvGetStrategy (LLMBackend.llm_provider backend) (LLMBackend.token backend)
      (SearchRequest.collection_name request_search) in
  let generated :=
    EvService {| strategy_type := LLMBackend.llm_provider backend;
                 strategy_token := LLMBackend.token backend;
                 strategy_collection_name := SearchRequest.collection_name request_search |}
      (Generate (CustomPromptCompletion.text request)) in
  credential_calls (trace (Api.custom_prompt_llm env request (fresh x s)).1) = [] /\
  match (Api.custom_prompt_llm env request (fresh x s)).2 with
  | inr _ => trace (Api.custom_prompt_llm env request (fresh x s)).1 = [built; generated]
  | inl e =>
      (exists err, e = Propagated err) /\
      trace (Api.custom_prompt_llm env request (fresh x s)).1 `prefix_of` [built; generated]
  end.
Proof.
  unfold Api.custom_prompt_llm. run.
  all: split; [done|]; try done.
  all: split; [eauto|]; eexists; simpl; reflexivity.
Qed.

(** X13: [create_collection] builds the strategy with an empty token and
    without a credential call, and the "created" message is only returned
    after the service has been asked to create the collection of that name;
    anything else is an exception of a collaborator. *)
Theorem create_collection_reports_after_creation {W} (env : Env W) p name x s :
  let built := EvGetStrategy p (Some EmptyString) (Some name) in
  let created :=
    EvService {| strategy_type := p; strategy_token := Some EmptyString;
                 strategy_collection_name := Some name |} (CreateCollection name) in
  match (Api.create_collection env p name (fresh x s)).2 with
  | inr r =>
      r = JSONResponse.mk [("message", "Collection " +:+ name +:+ " created.")] /\
      trace (Api.create_collection env p name (fresh x s)).1 = [built; created]
  | inl e =>
      (exists err, e = Propagated err) /\
      trace (Api.create_collection env p name (fresh x s)).1 `prefix_of` [built; created]
  end.
Proof.
  unfold Api.create_collection. run.
  all: try done.
  all: split; [eauto|]; eexists; simpl; reflexivity.
Qed.

(** ** History and summary *)

(** X14: [question_answer] asks for a summary at most once, never for a
    request without history, and always with an empty token, not with the
    validated one. *)
Theorem question_answer_summary_calls {W} (env : Env W) rag b f x s :
  (length (summaries (trace (Api.question_answer env rag b f (fresh x s)).1)) <= 1)%nat /\
  Forall (fun call => call.2 = EmptyString)
    (summaries (trace (Api.question_answer env rag b f (fresh x s)).1)) /\
  match RAGRequest.history rag with
  | [] => summaries (trace (Api.question_answer env rag b f (fresh x s)).1) = []
  | _ :: _ => True
  end.
Proof.
  unfold Api.question_answer.
  destruct (SearchRequest.query _).
  2: { repeat split; [simpl; lia | constructor | by destruct (RAGRequest.history rag)]. }
  destruct (RAGRequest.history rag); run.
  all: read_trace; simpl.
  all: repeat split; try lia; repeat constructor.
Qed.

(** X15: the summary is not used, but its failure is fatal: when
    [summarize_text] raises, the answer request ends in that exception and
    [rag] is never called. *)
Theorem question_answer_summary_failure_aborts {W} (env : Env W) rag b f w
    q token text err x1 x2 x3 x4 :
  let service :=
    {| strategy_type := LLMBackend.llm_provider b; strategy_token := Some token;
       strategy_collection_name := LLMBackend.collection_name b |} in
  SearchRequest.query (RAGRequest.search rag) = Some q ->
  RAGRequest.history rag ≠ [] ->
  validate_token env (LLMBackend.token b) (ScopeProvider (LLMBackend.llm_provider b))
    (ALEPH_ALPHA_API_KEY env) (OPENAI_API_KEY env) (ext w) = (x1, inr token) ->
  get_strategy env (LLMBackend.llm_provider b) (Some token)
    (LLMBackend.collection_name b) x1 = (x2, inr ()) ->
  combine_text_from_list env (RAGRequest.history rag) x2 = (x3, inr text) ->
  service_summarize_text env service text EmptyString x3 = (x4, inl err) ->
  Api.question_answer env rag b f w =
    ({| ext := x4; qdrant := qdrant w;
        trace := trace w ++
          [ EvValidateToken (LLMBackend.token b) (ScopeProvider (LLMBackend.llm_provider b))
              (ALEPH_ALPHA_API_KEY env) (OPENAI_API_KEY env);
            EvGetStrategy (LLMBackend.llm_provider b) (Some token)
              (LLMBackend.collection_name b);
            EvCombineText (RAGRequest.history rag);
            EvService service (SummarizeText text EmptyString) ] |},
     inl (Propagated err)).
Proof.
  intros service Hq Hh Hv Hg Hc Hs. unfold Api.question_answer. rewrite Hq.
  destruct (RAGRequest.history rag) as [|h hs] eqn:Hhist; [done|].
  repeat (progress (unfold_monad; simpl)).
  rewrite Hv. simpl. rewrite Hg. simpl. rewrite Hc. simpl.
  fold service. rewrite Hs. simpl. by rewrite <- !app_assoc.
Qed.

Lemma question_answer_summary_failure_aborts_witness :
  (Api.question_answer (stub_env_with (Some "tmp") (inl timed_out) (inr ())) talk
     openai_backend no_filtering (fresh () (store_of []))).2 = inl (Propagated timed_out).
Proof.
  rewrite (question_answer_summary_failure_aborts
             (stub_env_with (Some "tmp") (inl timed_out) (inr ())) talk openai_backend
             no_filtering (fresh () (store_of [])) "sky color" "sk-1" "Hi Hello" timed_out
             () () () () eq_refl ltac:(discriminate) eq_refl eq_refl eq_refl eq_refl).
  reflexivity.
Defined.

(** ** Deleting *)

(** X16: when the connection to the vector database cannot be loaded,
    [delete] passes the exception on, sends no delete request and leaves the
    store as it is. *)
Theorem delete_without_connection {W} (env : Env W) page source p w c err x :
  Api.delete_collection (default OPENAI p) = inr c ->
  load_vec_db_conn env (ext w) = (x, inl err) ->
  Api.delete env page source p w =
    ({| ext := x; qdrant := qdrant w; trace := trace w ++ [EvLoadVecDbConn] |},
     inl (Propagated err)).
Proof.
  intros Hc Hl. unfold Api.delete. rewrite Hc.
  repeat (progress (unfold_monad; simpl)). by rewrite Hl.
Qed.

Lemma delete_without_connection_witness :
  Api.delete (stub_env_with None (inr "summary") (inl timed_out)) 3 "doc.pdf" None
    (fresh () (store_of two_on_page_3)) =
  ({| ext := (); qdrant := store_of two_on_page_3; trace := [EvLoadVecDbConn] |},
   inl (Propagated timed_out)).
Proof.
  apply (delete_without_connection (stub_env_with None (inr "summary") (inl timed_out))
           3 "doc.pdf" None (fresh () (store_of two_on_page_3)) "openai" timed_out ()
           eq_refl eq_refl).
Defined.

Lemma filter_twice {A} (P : A -> Prop) `{!forall a, Decision (P a)} (l : list A) :
  filter P (filter P l) = filter P l.
Proof.
  apply filter_keeps_all, Forall_forall. by intros a [Ha _]%list_elem_of_filter.
Qed.

(** X17: deleting the same page and source again changes nothing: after a
    delete no record of the collection matches any more, and a second delete
    leaves every collection as the first one left it and is answered as
    completed, with the id the store gives to that operation. *)
Theorem delete_again_changes_nothing {W} (env : Env W) page source p w c points x x' :
  Api.delete_collection (default OPENAI p) = inr c ->
  load_vec_db_conn env (ext w) = (x, inr ()) ->
  load_vec_db_conn env x = (x', inr ()) ->
  Qdrant.collections (qdrant w) !! c = Some points ->
  let once := (Api.delete env page source p w).1 in
  let twice := Api.delete env page source p once in
  (forall kept, Qdrant.collections (qdrant once) !! c = Some kept ->
     Forall (fun pt => ~ metadata_matches page source pt) kept) /\
  Qdrant.collections (qdrant twice.1) = Qdrant.collections (qdrant once) /\
  twice.2 = inr {| Qdrant.operation_id :=
                     Qdrant.operation_ids (qdrant once) (Qdrant.operations (qdrant once));
                   Qdrant.status := Qdrant.COMPLETED |}.
Proof.
  intros Hc Hl Hl' Hp once twice. subst twice once.
  rewrite (delete_run env page source p w c points x Hc Hl Hp). simpl.
  split.
  { intros kept. rewrite lookup_insert_eq. intros [= <-].
    apply Forall_forall. intros pt [Hpt _]%list_elem_of_filter.
    by apply delete_filter_keeps. }
  erewrite delete_run; [|exact Hc|exact Hl'|simpl; apply lookup_insert_eq].
  simpl. split; [|done].
  by rewrite insert_insert_eq, filter_twice.
Qed.

Lemma delete_again_changes_nothing_witness :
  Qdrant.collections
    (qdrant (Api.delete (stub_env []) 3 "doc.pdf" None
               (Api.delete (stub_env []) 3 "doc.pdf" None
                  (fresh () (store_of two_on_page_3))).1).1) =
  Qdrant.collections
    (qdrant (Api.delete (stub_env []) 3 "doc.pdf" None
               (fresh () (store_of two_on_page_3))).1).
Proof.
  apply (delete_again_changes_nothing (stub_env []) 3 "doc.pdf" None
           (fresh () (store_of two_on_page_3)) "openai" two_on_page_3 () ()
           eq_refl eq_refl eq_refl eq_refl).
Defined.

(** ** Where uploads land *)

(** X18: the uploads are not confined to the temporary folder: when
    [post_embedd_documents] answers, an upload whose file name is an absolute
    path has been written at that path itself. *)
Theorem absolute_file_name_leaves_the_folder {W} (env : Env W) b files x s
    token x1 tmp_dir x2 w' r i file name :
  validate_token env (LLMBackend.token b) (ScopeBackend b)
    (ALEPH_ALPHA_API_KEY env) (OPENAI_API_KEY env) x = (x1, inr token) ->
  create_tmp_folder env x1 = (x2, inr tmp_dir) ->
  Api.post_embedd_documents env b files (fresh x s) = (w', inr r) ->
  files !! i = Some file ->
  UploadFile.filename file = Some name ->
  Posix.root_of name ≠ EmptyString ->
  writes (trace w') !! i = Some (Posix.str (Posix.parse name), UploadFile.content file).
Proof.
  intros Hv Ht Hrun Hi Hname Hroot.
  destruct (post_embedd_documents_returns env b files x s token x1 tmp_dir x2 w' r
              Hv Ht Hrun) as [Hsaved _].
  destruct (Forall2_lookup_l _ _ _ _ _ Hsaved Hi) as (wr & Hwr & dir & name' & _ & Hn & ->).
  rewrite Hwr. rewrite Hname in Hn. injection Hn as <-.
  by rewrite path_join_absolute.
Qed.

Lemma absolute_file_name_leaves_the_folder_witness :
  writes (trace (Api.post_embedd_documents (stub_env []) openai_backend [escaping]
                   (fresh () (store_of []))).1) !! 0%nat =
  Some ("/etc/cron.d/x", "job").
Proof.
  apply (absolute_file_name_leaves_the_folder (stub_env []) openai_backend [escaping] ()
           (store_of []) "sk-1" () (Some "tmp") () _
           (EmbeddingResponse.mk SUCCESS ["/etc/cron.d/x"]) 0%nat escaping "/etc/cron.d/x"
           eq_refl eq_refl eq_refl eq_refl eq_refl).
  discriminate.
Defined.

(** ** What the services are called with *)

(** X19: when [search] answers, with the message or with results, it has
    made exactly three calls: the credential call for the requested provider,
    the construction of that provider's strategy with the token that the
    credential call returned in place of the request's, and the provider
    search with the request and its filtering. *)
Theorem search_calls {W} (env : Env W) search b f x s token x1 w' out :
  validate_token env (LLMBackend.token b) (ScopeProvider (LLMBackend.llm_provider b))
    (ALEPH_ALPHA_API_KEY env) (OPENAI_API_KEY env) x = (x1, inr token) ->
  Api.search env search b f (fresh x s) = (w', inr out) ->
  trace w' =
    [ EvValidateToken (LLMBackend.token b) (ScopeProvider (LLMBackend.llm_provider b))
        (ALEPH_ALPHA_API_KEY env) (OPENAI_API_KEY env);
      EvGetStrategy (LLMBackend.llm_provider b) (Some token)
        (LLMBackend.collection_name b);
      EvService {| strategy_type := LLMBackend.llm_provider b;
                   strategy_token := Some token;
                   strategy_collection_name := LLMBackend.collection_name b |}
        (Search search (Some f)) ].
Proof.
  intros Hv. unfold Api.search.
  repeat (progress (unfold_monad; simpl)). rewrite Hv. simpl.
  step; [done|]. step; [done|].
  match goal with
  | |- context [ match ?found with [] => _ | _ :: _ => _ end ] =>
      destruct found as [|d ds]
  end; unfold_monad.
  2: destruct (Api.search_responses env (d :: ds) []); [done|].
  all: by intros [= <- _].
Qed.

Lemma search_calls_witness :
  trace (Api.search (stub_env []) (sky_request (Some "sky color")) openai_backend
           no_filtering (fresh () (store_of []))).1 =
    [ EvValidateToken (Some "sk-1") (ScopeProvider OPENAI) (Some "aa-key") None;
      EvGetStrategy OPENAI (Some "sk-1") (Some "docs");
      EvService {| strategy_type := OPENAI; strategy_token := Some "sk-1";
                   strategy_collection_name := Some "docs" |}
        (Search (sky_request (Some "sky color")) (Some no_filtering)) ].
Proof.
  apply (search_calls (stub_env []) (sky_request (Some "sky color")) openai_backend
           no_filtering () (store_of []) "sk-1" () _ (inl no_documents_found)
           eq_refl eq_refl).
Defined.

(** X20: when [question_answer] answers, its last call is [rag] with the
    request, the backend object and the filtering exactly as they came in, on
    a service object built with the token that [validate_token] returned (the
    backend object handed on keeps its own token), and there was exactly one
    [rag] call. *)
Theorem question_answer_hands_request_on {W} (env : Env W) rag b f x s token x1 w' r :
  validate_token env (LLMBackend.token b) (ScopeProvider (LLMBackend.llm_provider b))
    (ALEPH_ALPHA_API_KEY env) (OPENAI_API_KEY env) x = (x1, inr token) ->
  Api.question_answer env rag b f (fresh x s) = (w', inr r) ->
  rag_calls (trace w') = [rag] /\
  last (trace w') =
    Some (EvService {| strategy_type := LLMBackend.llm_provider b;
                       strategy_token := Some token;
                       strategy_collection_name := LLMBackend.collection_name b |}
            (Rag rag b f)).
Proof.
  intros Hv. unfold Api.question_answer.
  destruct (SearchRequest.query _); [|done].
  destruct (RAGRequest.history rag);
    repeat (progress (unfold_monad; simpl)); rewrite Hv; simpl; run; try done.
  all: intros [= <- _]; simpl; read_trace; done.
Qed.

Lemma question_answer_hands_request_on_witness :
  rag_calls (trace (Api.question_answer (stub_env []) talk openai_backend no_filtering
                      (fresh () (store_of []))).1) = [talk] /\
  last (trace (Api.question_answer (stub_env []) talk openai_backend no_filtering
                 (fresh () (store_of []))).1) =
    Some (EvService {| strategy_type := OPENAI; strategy_token := Some "sk-1";
                       strategy_collection_name := Some "docs" |}
            (Rag talk openai_backend no_filtering)).
Proof.
  apply (question_answer_hands_request_on (stub_env []) talk openai_backend no_filtering
           () (store_of []) "sk-1" () _ (QAResponse.mk "answer" (stub_prompt talk) None)
           eq_refl eq_refl).
Defined.
